(** * A real-time notification relay with graceful shutdown

    Shallow embedding of [main.py]: the Socket.IO event handlers
    ([connect], [disconnect], [message]), the background [broadcaster]
    coroutine and [lifespan] with its [finally] block.

    The module globals, the two clocks, the background task and the calls
    made on the Socket.IO server live in one record, [world]; the Python
    code is written in a small state-and-exception monad over it.  The
    process is single-threaded and cooperative: a coroutine runs until it
    awaits.  The coordinator ([lifespan]) is the main line of the model; at
    each of its suspensions the rest of the process runs one entry of a
    [script] of actions.  Loguru calls only format text and are left out. *)

From stdpp Require Import base strings gmap list fin_maps pretty.

#[local] Open Scope Z_scope.
#[local] Set Warnings "-register-all".

(** ** Data *)

(** JSON-like payloads handed to [sio.emit]. *)
Inductive value : Type :=
  | VNone
  | VInt (n : Z)
  | VTime (t : Z)
  | VStr (s : string)
  | VDict (items : list (string * value)).

(** Clock readings ([time.monotonic()], [time.time()]) are integers that
    count milliseconds.  Python reads the clocks as floats; the rounding of
    float arithmetic is far below a millisecond and is left out: the
    general statements about the shutdown compare readings with [<=], they
    neither count the passes of the loop nor fix the instant at which it
    ends. *)
Definition seconds (n : Z) : Z := n * 1000.

(** [MAX_GRACE_PERIOD = 30 * 60] *)
Definition MAX_GRACE_PERIOD : Z := seconds (30 * 60).

(** What the rest of the process does while the coordinator is suspended:
    the transport delivers events to the handlers, the clocks advance, the
    event loop resumes the background task. *)
Inductive action : Type :=
  | OnConnect (sid : string) (environ : value)
  | OnDisconnect (sid : string)
  | OnMessage (sid : string) (data : value)
  | Tick (dt : N)
  | ResumeBroadcaster.

(** Where the coroutine [broadcaster()] is parked: not yet run, or inside
    [asyncio.sleep(10)] with its local [counter] and the timer's deadline. *)
Inductive suspended : Type :=
  | Fresh
  | InSleep (counter : Z) (deadline : Z).

(** [bg_task]: an [asyncio.Task]. *)
Inductive task : Type :=
  | Pending (at_ : suspended) (must_cancel : bool)
  | Returned
  | Cancelled.

(** Calls and steps of the process, in the order in which they happen. *)
Inductive obs : Type :=
  | Emit (event : string) (data : value) (to : option string)
  | ForceDisconnect (sid : string) (ignore_queue : bool)
  | FlagSet
  | StartRecorded (t : Z)
  | Poll (active : nat) (remaining : Z)
  | TaskCreated
  | TaskCancel
  | BroadcasterStopped (cancelled : bool).

(** A Python dict keeps its keys in insertion order: the registry is the
    map [active_clients] together with [arrival], its keys in the order in
    which they were inserted. *)
Record world : Type := World {
  active_clients : gmap string Z;       (* sid: last_activity_timestamp *)
  arrival : list string;                (* list(active_clients) *)
  shutdown_requested : bool;
  shutdown_start_time : option Z;
  monotonic : Z;                        (* time.monotonic() *)
  wall : Z;                             (* time.time() *)
  bg_task : task;
  script : list (list action);          (* one entry per suspension *)
  on_close : string -> list action;     (* the transport's reaction to sio.disconnect *)
  trace : list obs
}.

Definition with_active_clients (m : gmap string Z) (w : world) : world :=
  World m (arrival w) (shutdown_requested w) (shutdown_start_time w) (monotonic w)
        (wall w) (bg_task w) (script w) (on_close w) (trace w).

Definition with_arrival (sids : list string) (w : world) : world :=
  World (active_clients w) sids (shutdown_requested w) (shutdown_start_time w)
        (monotonic w) (wall w) (bg_task w) (script w) (on_close w) (trace w).

Definition with_shutdown_requested (b : bool) (w : world) : world :=
  World (active_clients w) (arrival w) b (shutdown_start_time w) (monotonic w)
        (wall w) (bg_task w) (script w) (on_close w) (trace w).

Definition with_shutdown_start_time (t : option Z) (w : world) : world :=
  World (active_clients w) (arrival w) (shutdown_requested w) t (monotonic w)
        (wall w) (bg_task w) (script w) (on_close w) (trace w).

Definition with_clocks (mono wl : Z) (w : world) : world :=
  World (active_clients w) (arrival w) (shutdown_requested w) (shutdown_start_time w) mono
        wl (bg_task w) (script w) (on_close w) (trace w).

Definition with_bg_task (t : task) (w : world) : world :=
  World (active_clients w) (arrival w) (shutdown_requested w) (shutdown_start_time w)
        (monotonic w) (wall w) t (script w) (on_close w) (trace w).

Definition with_script (s : list (list action)) (w : world) : world :=
  World (active_clients w) (arrival w) (shutdown_requested w) (shutdown_start_time w)
        (monotonic w) (wall w) (bg_task w) s (on_close w) (trace w).

Definition with_trace (tr : list obs) (w : world) : world :=
  World (active_clients w) (arrival w) (shutdown_requested w) (shutdown_start_time w)
        (monotonic w) (wall w) (bg_task w) (script w) (on_close w) tr.

(** ** The monad *)

Inductive exn : Type :=
  | KeyError (key : string)
  | TypeError
  | CancelledError.

(** [Starved]: the model ran out of fuel before the loop ended. *)
Inductive result (A : Type) : Type :=
  | Ok (a : A)
  | Raise (e : exn)
  | Starved.
Arguments Ok {A} a.
Arguments Raise {A} e.
Arguments Starved {A}.

Definition M (A : Type) : Type := world -> result A * world.

Definition ret {A} (a : A) : M A := fun w => (Ok a, w).

Definition bind {A B} (m : M A) (k : A -> M B) : M B := fun w =>
  match m w with
  | (Ok a, w') => k a w'
  | (Raise e, w') => (Raise e, w')
  | (Starved, w') => (Starved, w')
  end.

Notation "'let*' x ':=' m 'in' k" := (bind m (fun x => k))
  (at level 10, x name, m at level 100, k at level 200).
Notation "m ;; k" := (bind m (fun _ => k))
  (at level 100, k at level 200, right associativity).

Definition gets {A} (f : world -> A) : M A := fun w => (Ok (f w), w).
Definition modify (f : world -> world) : M unit := fun w => (Ok tt, f w).
Definition raise {A} (e : exn) : M A := fun w => (Raise e, w).
Definition starve {A} : M A := fun w => (Starved, w).

(** The world a computation leaves behind. *)
Definition exec {A} (m : M A) (w : world) : world := snd (m w).

Definition log (o : obs) : M unit :=
  modify (fun w => with_trace (trace w ++ [o]) w).

Fixpoint for_each {A} (l : list A) (body : A -> M unit) : M unit :=
  match l with
  | [] => ret tt
  | x :: l' => body x ;; for_each l' body
  end.

(** [with suppress(...)]: the exceptions selected by [which] are swallowed. *)
Definition suppress (which : exn -> bool) (m : M unit) : M unit := fun w =>
  match m w with
  | (Raise e, w') => if which e then (Ok tt, w') else (Raise e, w')
  | r => r
  end.

Definition is_CancelledError (e : exn) : bool :=
  match e with CancelledError => true | _ => false end.

(** ** Library calls *)

Definition time_monotonic : M Z := gets monotonic.
Definition time_time : M Z := gets wall.

(** [len(active_clients)] *)
Definition len_active_clients : M nat := gets (fun w => size (active_clients w)).

(** [sid in active_clients] *)
Definition present (sid : string) (w : world) : bool :=
  bool_decide (is_Some (active_clients w !! sid)).

Definition contains (sid : string) : M bool := gets (present sid).

(** [active_clients[sid] = t]: a new key goes to the end of the dict, a
    key that is there keeps its place. *)
Definition set_item (sid : string) (t : Z) : M unit :=
  modify (fun w =>
    with_arrival (if present sid w then arrival w else arrival w ++ [sid])
      (with_active_clients (<[sid := t]> (active_clients w)) w)).

(** [del active_clients[sid]]: a [KeyError] when the key is missing. *)
Definition del_item (sid : string) : M unit := fun w =>
  match active_clients w !! sid with
  | Some _ =>
      (Ok tt,
       with_arrival (filter (fun s => s <> sid) (arrival w))
         (with_active_clients (delete sid (active_clients w)) w))
  | None => (Raise (KeyError sid), w)
  end.

(** [sio.emit(event, data, to=None)]: without [to] the event goes to every
    connected client.  The call is the last effect of every pass that makes
    it, so a suspension inside it changes nothing and is not modelled. *)
Definition sio_emit (event : string) (data : value) (to : option string) : M unit :=
  log (Emit event data to).

(** ** Socket.IO events *)

Definition connect (sid : string) (environ : value) : M unit :=
  let* now := time_monotonic in
  set_item sid now ;;
  sio_emit "welcome" (VDict [("msg", VStr "Welcome! Real-time notifications started")]) None.

Definition disconnect (sid : string) : M unit :=
  let* found := contains sid in
  if found then del_item sid else ret tt.

Definition message (sid : string) (data : value) : M unit :=
  sio_emit "message" (VDict [("from", VStr sid); ("data", data)]) None.

(** ** Background broadcaster *)

(** One pass through the body of [while True], from the top of the loop to
    the suspension in [asyncio.sleep(10)].  [None]: the coroutine returned;
    [Some counter]: it is parked in the sleep with that [counter]. *)
Definition broadcaster_body (counter : Z) : M (option Z) :=
  let* stop := gets shutdown_requested in
  if stop then ret None
  else
    let* clients := len_active_clients in
    let* counter :=
      (if (0 <? clients)%nat then
         let counter := counter + 1 in
         let* now := time_time in
         sio_emit "notification"
           (VDict [("id", VInt counter);
                   ("text", VStr ("Server notification #" +:+ pretty counter));
                   ("time", VTime now)]) None ;;
         ret counter
       else ret counter) in
    ret (Some counter).

Definition set_bg_task (t : task) : M unit := modify (with_bg_task t).

(** The coroutine runs from [counter] until it parks again or returns. *)
Definition run_broadcaster (counter : Z) : M unit :=
  let* parked := broadcaster_body counter in
  match parked with
  | Some counter' =>
      let* now := time_monotonic in
      set_bg_task (Pending (InSleep counter' (now + seconds 10)) false)
  | None => set_bg_task Returned ;; log (BroadcasterStopped false)
  end.

(** [broadcaster()] starts with [counter = 0]. *)
Definition broadcaster : M unit := run_broadcaster 0.

(** The event loop gives the task a turn: a requested cancellation is thrown
    into the coroutine, which does not catch it; a fresh coroutine starts;
    a sleeping one goes on once its timer is due. *)
Definition resume_bg_task : M unit :=
  let* t := gets bg_task in
  match t with
  | Pending _ true => set_bg_task Cancelled ;; log (BroadcasterStopped true)
  | Pending Fresh false => broadcaster
  | Pending (InSleep counter deadline) false =>
      let* now := time_monotonic in
      if deadline <=? now then run_broadcaster counter else ret tt
  | Returned | Cancelled => ret tt
  end.

(** ** The rest of the process *)

Definition tick (dt : Z) (w : world) : world :=
  with_clocks (monotonic w + dt) (wall w + dt) w.

Definition run_action (a : action) (w : world) : world :=
  match a with
  | OnConnect sid environ => exec (connect sid environ) w
  | OnDisconnect sid => exec (disconnect sid) w
  | OnMessage sid data => exec (message sid data) w
  | Tick dt => tick (Z.of_N dt) w
  | ResumeBroadcaster => exec resume_bg_task w
  end.

Definition run_actions (acts : list action) (w : world) : world :=
  foldl (fun w a => run_action a w) w acts.

(** A suspension of the coordinator: the other coroutines run the next
    entry of the script (nothing when the script is used up). *)
Definition suspend : M unit := modify (fun w =>
  run_actions (List.hd [] (script w)) (with_script (List.tl (script w)) w)).

(** [await asyncio.sleep(d)]: the coordinator goes on no earlier than [d]
    after it went to sleep. *)
Definition asyncio_sleep (d : Z) : M unit :=
  let* start := time_monotonic in
  suspend ;;
  modify (fun w => tick (Z.max 0 (start + d - monotonic w)) w).

(** [await sio.disconnect(sid, ignore_queue=...)]: the connection is closed
    and the transport reacts (python-socketio triggers the [disconnect]
    handler of a connected client). *)
Definition sio_disconnect (sid : string) (ignore_queue : bool) : M unit :=
  log (ForceDisconnect sid ignore_queue) ;;
  modify (fun w => run_actions (on_close w sid) w).

(** [bg_task.cancel()]: a request, nothing for a task that is done. *)
Definition task_cancel : M unit :=
  log TaskCancel ;;
  let* t := gets bg_task in
  match t with
  | Pending c _ => set_bg_task (Pending c true)
  | Returned | Cancelled => ret tt
  end.

(** [await bg_task]: the task gets its turn; a cancelled task raises
    [CancelledError] in the awaiting coroutine.  A task that parks again
    keeps the awaiting coroutine waiting.  The turn goes to the task alone:
    callbacks of other coroutines that are ready at this point (a handler
    that the event loop has already scheduled) are not run by the model.
    A statement that fixes everything that happens between [cancel()] and
    the end of the await holds when no such callback is pending. *)
Definition await_bg_task : M unit :=
  resume_bg_task ;;
  let* t := gets bg_task in
  match t with
  | Returned => ret tt
  | Cancelled => raise CancelledError
  | Pending _ _ => starve
  end.

(** ** lifespan *)

(** [bg_task = asyncio.create_task(broadcaster())] *)
Definition lifespan_startup : M unit :=
  set_bg_task (Pending Fresh false) ;; log TaskCreated.

(** The [while len(active_clients) > 0 and remaining > 0] loop. *)
Fixpoint drain (fuel : nat) (remaining : Z) : M unit :=
  match fuel with
  | O => starve
  | S fuel =>
      let* active := len_active_clients in
      log (Poll active remaining) ;;
      if (0 <? active)%nat && (0 <? remaining) then
        asyncio_sleep (seconds 5) ;;
        let* now := time_monotonic in
        let* start := gets shutdown_start_time in
        match start with
        | Some start => drain fuel (Z.max 0 (MAX_GRACE_PERIOD - (now - start)))
        | None => raise TypeError
        end
      else ret tt
  end.

(** The [if len(active_clients) > 0] block after the loop: every sid of
    [list(active_clients)] is disconnected. *)
Definition force_close : M unit :=
  let* active := len_active_clients in
  if (0 <? active)%nat then
    let* sids := gets arrival in
    for_each sids (fun sid => sio_disconnect sid true)
  else ret tt.

(** [shutdown_requested = True] and
    [shutdown_start_time = time.monotonic()]. *)
Definition signal_shutdown : M unit :=
  modify (with_shutdown_requested true) ;;
  log FlagSet ;;
  let* now := time_monotonic in
  modify (with_shutdown_start_time (Some now)) ;;
  log (StartRecorded now).

(** [bg_task.cancel()], then [await bg_task] under
    [suppress(asyncio.CancelledError)]. *)
Definition stop_broadcaster : M unit :=
  task_cancel ;;
  suppress is_CancelledError await_bg_task.

(** The [finally] block. *)
Definition lifespan_shutdown (fuel : nat) : M unit :=
  signal_shutdown ;;
  let remaining := MAX_GRACE_PERIOD in
  drain fuel remaining ;;
  force_close ;;
  stop_broadcaster.

(** Startup, the [yield] during which the application serves, shutdown. *)
Definition lifespan (fuel : nat) : M unit :=
  lifespan_startup ;;
  suspend ;;
  lifespan_shutdown fuel.

(** ** Reading the trace *)

Definition notification_id (o : obs) : option Z :=
  match o with
  | Emit event (VDict (("id", VInt n) :: _)) _ =>
      if decide (event = "notification") then Some n else None
  | _ => None
  end.

Definition notification_ids (tr : list obs) : list Z := omap notification_id tr.

(** The sids handed to [sio.disconnect]. *)
Definition forced_sid (o : obs) : option string :=
  match o with ForceDisconnect sid _ => Some sid | _ => None end.

Definition forced (tr : list obs) : list string := omap forced_sid tr.

Definition poll_of (o : obs) : option (nat * Z) :=
  match o with Poll active remaining => Some (active, remaining) | _ => None end.

Definition polls (tr : list obs) : list (nat * Z) := omap poll_of tr.

(** ** Properties of computations *)

(** [f] keeps [I]. *)
Definition preserves (I : world -> Prop) (f : world -> world) : Prop :=
  forall w, I w -> I (f w).

(** The trace is [tr0] followed by observations that all satisfy [Q]. *)
Definition extended (tr0 : list obs) (Q : obs -> Prop) (w : world) : Prop :=
  exists new, trace w = tr0 ++ new /\ Forall Q new.

(** [f] only appends to the trace, and only observations in [Q]. *)
Definition appends (Q : obs -> Prop) (f : world -> world) : Prop :=
  forall tr0, preserves (extended tr0 Q) f.

(** ** Concrete worlds *)

(** A process that has just created its background task: nobody connected,
    both clocks at 0, a transport that reports a forced close back to the
    [disconnect] handler. *)
Definition idle : world :=
  World ∅ [] false None 0 0 (Pending Fresh false) []
        (fun sid => [OnDisconnect sid]) [].

(** [idle] after the shutdown signal. *)
Definition draining : world :=
  with_shutdown_start_time (Some 0) (with_shutdown_requested true idle).

(** ** Counting the events of a run *)

(** The connect events of a run. *)
Fixpoint connect_events (evs : list action) : nat :=
  match evs with
  | [] => 0
  | OnConnect _ _ :: evs' => S (connect_events evs')
  | _ :: evs' => connect_events evs'
  end.

(** The connect events whose id was absent at the time of the connect. *)
Fixpoint fresh_connects (evs : list action) (w : world) : nat :=
  match evs with
  | [] => 0
  | a :: evs' =>
      (match a with
       | OnConnect sid _ => if present sid w then 0 else 1
       | _ => 0
       end + fresh_connects evs' (run_action a w))%nat
  end.

(** The disconnect events whose id was present at the time of the
    disconnect. *)
Fixpoint effective_disconnects (evs : list action) (w : world) : nat :=
  match evs with
  | [] => 0
  | a :: evs' =>
      (match a with
       | OnDisconnect sid => if present sid w then 1 else 0
       | _ => 0
       end + effective_disconnects evs' (run_action a w))%nat
  end.

(** ** The counter of the background task *)

(** The local [counter] of the coroutine, while the task is pending. *)
Definition task_counter (t : task) : option Z :=
  match t with
  | Pending Fresh _ => Some 0
  | Pending (InSleep counter _) _ => Some counter
  | Returned | Cancelled => None
  end.

(** Since the trace read [ids0], the notifications carry the ids
    [1, 2, ..., k], and a pending task has [counter = k]. *)
Definition numbered (ids0 : list Z) (w : world) : Prop :=
  exists k : nat,
    notification_ids (trace w) = ids0 ++ seqZ 1 (Z.of_nat k) /\
    forall counter, task_counter (bg_task w) = Some counter -> counter = Z.of_nat k.

(** The flag is set and the notifications are still [ids0]. *)
Definition silenced (ids0 : list Z) (w : world) : Prop :=
  shutdown_requested w = true /\ notification_ids (trace w) = ids0.

(** A morning of events: "c1" connects and gets two notifications, leaves,
    a tick goes by with nobody connected, "c2" connects and gets the third. *)
Definition morning : list action :=
  [OnConnect "c1" VNone; ResumeBroadcaster; Tick 10000; ResumeBroadcaster;
   OnDisconnect "c1"; Tick 10000; ResumeBroadcaster;
   OnConnect "c2" VNone; Tick 10000; ResumeBroadcaster].

(** [idle] with one client and the broadcaster parked after its first
    pass. *)
Definition serving : world :=
  run_actions [OnConnect "c1" VNone; ResumeBroadcaster] idle.

(** A process with one visitor: "c1" connects and gets the first
    notification while the application serves, and leaves during the first
    sleep of the drain. *)
Definition one_visit : world :=
  with_script [[OnConnect "c1" VNone; ResumeBroadcaster]; [OnDisconnect "c1"]] idle.

(** [serving] ten seconds later, with the shutdown flag set. *)
Definition stopping : world := with_shutdown_requested true (tick 10000 serving).

(** ** Reading the script *)

(** What the handlers and the broadcaster add to the trace. *)
Definition ambient (o : obs) : Prop :=
  match o with
  | Emit _ _ _ | BroadcasterStopped _ => True
  | _ => False
  end.

(** What the trace can get while the coordinator drains. *)
Definition drain_obs (o : obs) : Prop :=
  match o with
  | Poll _ _ | Emit _ _ _ | BroadcasterStopped _ => True
  | _ => False
  end.

(** What the trace can get while the coordinator closes the stragglers. *)
Definition close_obs (o : obs) : Prop :=
  match o with
  | ForceDisconnect _ _ | Emit _ _ _ | BroadcasterStopped _ => True
  | _ => False
  end.


(** An action that leaves the clocks alone. *)
Definition timeless (a : action) : bool :=
  match a with
  | Tick _ => false
  | _ => true
  end.

(** [max(0, MAX_GRACE_PERIOD - (time.monotonic() - shutdown_start_time))] *)
Definition remaining_at (start : Z) (w : world) : Z :=
  Z.max 0 (MAX_GRACE_PERIOD - (monotonic w - start)).

(** No registry-size poll before the broadcaster's task has ended. *)
Fixpoint polls_after_stop (stopped : bool) (tr : list obs) : bool :=
  match tr with
  | [] => true
  | Poll _ _ :: tr' => stopped && polls_after_stop stopped tr'
  | BroadcasterStopped _ :: tr' => polls_after_stop true tr'
  | _ :: tr' => polls_after_stop stopped tr'
  end.

(** Two clients, the broadcaster parked after its first pass, and a script
    for the drain: a message arrives during the first sleep, which lasts
    seven seconds instead of five; the broadcaster gets a turn during the
    second. *)
Definition crowded : world :=
  with_script
    [[OnMessage "c1" (VStr "bye"); Tick 7000]; [Tick 5000; ResumeBroadcaster]]
    (run_actions [OnConnect "c1" VNone; OnConnect "c2" VNone; ResumeBroadcaster] idle).

(** ** Further readings of a world *)

(** Every entry of the registry was stamped in the past. *)
Definition timestamps_past (w : world) : Prop :=
  forall sid t, active_clients w !! sid = Some t -> t <= monotonic w.

(** An emit of one of the three events of the server, without a target;
    every other observation passes. *)
Definition known_broadcast (o : obs) : Prop :=
  match o with
  | Emit event _ to =>
      to = None /\ (event = "welcome" \/ event = "message" \/ event = "notification")
  | _ => True
  end.

(** A step of the coordinator itself. *)
Definition coordinator_obs (o : obs) : Prop :=
  match o with
  | Emit _ _ _ | BroadcasterStopped _ => False
  | _ => True
  end.

(** Since the clock read [since] and the trace read [ids0], the
    notifications carry the ids [1, ..., k]; the [k]-th came no earlier than
    [10 * (k - 1)] seconds after [since], and a parked task will not go on
    before [10 * k] seconds after [since]. *)
Definition paced (since : Z) (ids0 : list Z) (w : world) : Prop :=
  exists k : nat,
    notification_ids (trace w) = ids0 ++ seqZ 1 (Z.of_nat k) /\
    since <= monotonic w /\
    seconds 10 * (Z.of_nat k - 1) <= monotonic w - since /\
    match bg_task w with
    | Pending Fresh _ => k = 0%nat
    | Pending (InSleep counter deadline) _ =>
        counter = Z.of_nat k /\ seconds 10 * Z.of_nat k <= deadline - since
    | Returned | Cancelled => True
    end.

(** [arrival] lists the keys of the registry, each once: what a Python
    dict guarantees of [list(active_clients)]. *)
Definition keys_listed (w : world) : Prop :=
  NoDup (arrival w) /\ dom (active_clients w) =@{gset string} list_to_set (arrival w).

(** A client connects. *)
Definition arrives (a : action) : bool :=
  match a with
  | OnConnect _ _ => true
  | _ => false
  end.

(** The transport reports every forced close to the [disconnect] handler,
    as python-socketio does for a connected client, among whatever else
    happens before [sio.disconnect] returns. *)
Definition reports_close (w : world) : Prop :=
  forall sid, OnDisconnect sid ∈ on_close w sid.

(** No client connects while a forced close is under way. *)
Definition closes_without_arrival (w : world) : Prop :=
  forall sid, forallb (fun a => negb (arrives a)) (on_close w sid) = true.

(** * Proofs *)

(** ** The monad and the proof rules for [preserves] *)

Lemma exec_bind {A B} (m : M A) (k : A -> M B) (w : world) :
  exec (bind m k) w =
  match fst (m w) with
  | Ok a => exec (k a) (exec m w)
  | _ => exec m w
  end.
Proof. unfold exec, bind. by destruct (m w) as [[a|e|] w']. Qed.

Lemma bind_gets {A B} (f : world -> A) (k : A -> M B) w :
  bind (gets f) k w = k (f w) w.
Proof. reflexivity. Qed.

Lemma bind_exec {A B} (m : M A) (k : A -> M B) w a :
  fst (m w) = Ok a -> bind m k w = k a (exec m w).
Proof. unfold bind, exec. destruct (m w) as [r w']. simpl. by intros ->. Qed.

Lemma preserves_id I : preserves I (fun w => w).
Proof. by intros w. Qed.

Lemma preserves_compose I (f g : world -> world) :
  preserves I f -> preserves I g -> preserves I (fun w => g (f w)).
Proof. intros Hf Hg w Hw. by apply Hg, Hf. Qed.

Lemma preserves_bind {A B} I (m : M A) (k : A -> M B) :
  preserves I (exec m) -> (forall a, preserves I (exec (k a))) ->
  preserves I (exec (bind m k)).
Proof.
  intros Hm Hk w Hw. rewrite exec_bind.
  destruct (fst (m w)); [by apply Hk, Hm | by apply Hm | by apply Hm].
Qed.

Lemma preserves_ret {A} I (a : A) : preserves I (exec (ret a)).
Proof. by intros w. Qed.

Lemma preserves_gets {A} I (f : world -> A) : preserves I (exec (gets f)).
Proof. by intros w. Qed.

Lemma preserves_raise {A} I (e : exn) : preserves I (exec (raise (A:=A) e)).
Proof. by intros w. Qed.

Lemma preserves_starve {A} I : preserves I (exec (starve (A:=A))).
Proof. by intros w. Qed.

Lemma preserves_modify I (f : world -> world) :
  preserves I f -> preserves I (exec (modify f)).
Proof. intros Hf w Hw. by apply Hf. Qed.

Lemma preserves_suppress I which (m : M unit) :
  preserves I (exec m) -> preserves I (exec (suppress which m)).
Proof.
  intros Hm w Hw. specialize (Hm w Hw). unfold exec, suppress in *.
  destruct (m w) as [[a|e|] w']; simpl in *; [done | by destruct (which e) | done].
Qed.

Lemma preserves_for_each {A} I (l : list A) (body : A -> M unit) :
  (forall x, preserves I (exec (body x))) -> preserves I (exec (for_each l body)).
Proof.
  intros Hbody. induction l as [|x l IH]; simpl.
  - apply preserves_ret.
  - apply preserves_bind; [apply Hbody | intros _; apply IH].
Qed.

Lemma preserves_run_actions I (acts : list action) :
  (forall a, a ∈ acts -> preserves I (run_action a)) ->
  preserves I (run_actions acts).
Proof.
  unfold run_actions. induction acts as [|a acts IH]; intros Hacts w Hw; simpl.
  - done.
  - apply IH.
    + intros b Hb. apply Hacts. by apply list_elem_of_further.
    + apply Hacts; [apply list_elem_of_here | done].
Qed.

(** Unfolds [f] and the operations of the monad, and computes the binds. *)
Ltac monad_unfold f :=
  cbv [f bind ret gets modify raise starve log exec
       time_monotonic time_time len_active_clients contains set_item
       sio_emit set_bg_task].

(** Structural steps of a [preserves] goal; what is left are the updates of
    the world. *)
Ltac preserve :=
  repeat lazymatch goal with
    | |- preserves _ (exec (bind _ _)) => apply preserves_bind; [| intros ?]
    | |- preserves _ (exec (ret _)) => apply preserves_ret
    | |- preserves _ (exec (gets _)) => apply preserves_gets
    | |- preserves _ (exec (raise _)) => apply preserves_raise
    | |- preserves _ (exec starve) => apply preserves_starve
    | |- preserves _ (exec (modify _)) => apply preserves_modify
    | |- preserves _ (exec (suppress _ _)) => apply preserves_suppress
    | |- preserves _ (exec time_monotonic) => apply preserves_gets
    | |- preserves _ (exec len_active_clients) => apply preserves_gets
    end.

(** ** The event handlers *)

Lemma connect_eq sid environ w :
  connect sid environ w =
  (Ok tt,
   with_trace
     (trace w ++
      [Emit "welcome"
         (VDict [("msg", VStr "Welcome! Real-time notifications started")]) None])
     (with_arrival (if present sid w then arrival w else arrival w ++ [sid])
        (with_active_clients (<[sid := monotonic w]> (active_clients w)) w))).
Proof. reflexivity. Qed.

Lemma disconnect_present sid w :
  is_Some (active_clients w !! sid) ->
  disconnect sid w =
  (Ok tt,
   with_arrival (filter (fun s => s <> sid) (arrival w))
     (with_active_clients (delete sid (active_clients w)) w)).
Proof.
  intros [t Ht]. unfold disconnect, bind, contains, gets, present, del_item.
  rewrite bool_decide_eq_true_2; [by rewrite Ht | by exists t].
Qed.

Lemma disconnect_absent sid w :
  active_clients w !! sid = None -> disconnect sid w = (Ok tt, w).
Proof.
  intros Hnone. unfold disconnect, bind, contains, gets, present.
  rewrite bool_decide_eq_false_2; [done |].
  rewrite Hnone. by intros [? ?].
Qed.

Lemma message_eq sid data w :
  message sid data w =
  (Ok tt,
   with_trace (trace w ++ [Emit "message" (VDict [("from", VStr sid); ("data", data)]) None]) w).
Proof. reflexivity. Qed.

(** C2, as amended: a connect event makes exactly one emit, the "welcome"
    event with the fixed greeting, and it is sent without a target, that is
    to every connected client. *)
Theorem connect_emits_one_broadcast_welcome (sid : string) (environ : value) (w : world) :
  exists w',
    connect sid environ w = (Ok tt, w') /\
    trace w' =
      trace w ++
      [Emit "welcome"
         (VDict [("msg", VStr "Welcome! Real-time notifications started")]) None].
Proof. eexists. split; [apply connect_eq | reflexivity]. Qed.

(** C2, as stated, fails: the welcome of connection "c1" is not addressed
    to "c1". *)
Lemma connect_welcome_not_addressed_to_sender :
  ~ exists data,
      trace (exec (connect "c1" VNone) idle) =
      trace idle ++ [Emit "welcome" data (Some "c1")].
Proof. intros [data H]. vm_compute in H. discriminate H. Qed.

(** C8: [disconnect] never raises; it removes a registered id and leaves
    the whole world as it is for an id that is not registered. *)
Theorem disconnect_removes_or_skips (sid : string) (w : world) :
  (is_Some (active_clients w !! sid) ->
   exists w',
     disconnect sid w = (Ok tt, w') /\
     active_clients w' = delete sid (active_clients w) /\
     active_clients w' !! sid = None /\
     trace w' = trace w) /\
  (active_clients w !! sid = None -> disconnect sid w = (Ok tt, w)).
Proof.
  split.
  - intros Hin. eexists. split; [by apply disconnect_present |].
    simpl. split_and!; [done | apply lookup_delete_eq | done].
  - apply disconnect_absent.
Qed.

Lemma disconnect_removes_or_skips_witness :
  (exists w', disconnect "c1" (exec (connect "c1" VNone) idle) = (Ok tt, w') /\
              active_clients w' !! "c1" = None) /\
  disconnect "c1" idle = (Ok tt, idle) /\
  disconnect "c1" (exec (connect "c1" VNone ;; disconnect "c1") idle) =
    (Ok tt, exec (connect "c1" VNone ;; disconnect "c1") idle).
Proof.
  split_and!.
  - destruct (disconnect_removes_or_skips "c1" (exec (connect "c1" VNone) idle))
      as [Hin _].
    destruct Hin as (w' & Hrun & _ & Hgone & _); [by vm_compute; eexists |].
    by exists w'.
  - by apply (disconnect_removes_or_skips "c1" idle).
  - by apply (disconnect_removes_or_skips "c1").
Defined.

(** C10: a message event makes exactly one emit, the "message" event with
    [{from: sid, data: data}] and no target, whether or not [sid] is
    registered, and leaves the registry alone. *)
Theorem message_echoes_to_all (sid : string) (data : value) (w : world) :
  exists w',
    message sid data w = (Ok tt, w') /\
    trace w' =
      trace w ++ [Emit "message" (VDict [("from", VStr sid); ("data", data)]) None] /\
    active_clients w' = active_clients w.
Proof. eexists. split; [apply message_eq | by split]. Qed.

(** ** The broadcaster, one pass at a time *)

Lemma broadcaster_body_eq counter w :
  broadcaster_body counter w =
  if shutdown_requested w then (Ok None, w)
  else if (0 <? size (active_clients w))%nat then
    (Ok (Some (counter + 1)),
     with_trace
       (trace w ++
        [Emit "notification"
           (VDict [("id", VInt (counter + 1));
                   ("text", VStr ("Server notification #" +:+ pretty (counter + 1)));
                   ("time", VTime (wall w))]) None]) w)
  else (Ok (Some counter), w).
Proof.
  monad_unfold broadcaster_body.
  destruct (shutdown_requested w); [done |].
  by destruct (0 <? size (active_clients w))%nat.
Qed.

Lemma run_broadcaster_eq counter w :
  run_broadcaster counter w =
  match broadcaster_body counter w with
  | (Ok (Some counter'), w') =>
      (Ok tt, with_bg_task (Pending (InSleep counter' (monotonic w' + seconds 10)) false) w')
  | (_, w') =>
      (Ok tt, with_trace (trace w' ++ [BroadcasterStopped false]) (with_bg_task Returned w'))
  end.
Proof.
  monad_unfold run_broadcaster. rewrite !broadcaster_body_eq.
  destruct (shutdown_requested w); [done |].
  by destruct (0 <? size (active_clients w))%nat.
Qed.

(** C3, as amended: the shutdown flag stops the broadcaster and nothing
    else.  With the flag set, a connect event still registers its id (one
    more entry when the id was absent), and a pass of the broadcaster
    returns without an emit. *)
Theorem connect_registers_during_draining
    (sid : string) (environ : value) (counter : Z) (w : world) :
  shutdown_requested w = true ->
  (exists w',
     connect sid environ w = (Ok tt, w') /\
     active_clients w' !! sid = Some (monotonic w) /\
     (active_clients w !! sid = None ->
      size (active_clients w') = S (size (active_clients w))) /\
     shutdown_requested w' = true) /\
  broadcaster_body counter w = (Ok None, w).
Proof.
  intros Hflag. split.
  - eexists. split; [apply connect_eq |]. simpl. split_and!.
    + apply lookup_insert_eq.
    + intros Hnone. by apply map_size_insert_None.
    + done.
  - rewrite broadcaster_body_eq. by rewrite Hflag.
Qed.

Lemma connect_registers_during_draining_witness :
  (exists w',
     connect "c1" VNone draining = (Ok tt, w') /\
     active_clients w' !! "c1" = Some 0 /\
     size (active_clients w') = 1%nat) /\
  broadcaster_body 0 draining = (Ok None, draining).
Proof.
  destruct (connect_registers_during_draining "c1" VNone 0 draining)
    as [(w' & Hrun & Hin & Hsize & _) Hstop]; [reflexivity |].
  split; [| exact Hstop].
  exists w'. split_and!; [exact Hrun | exact Hin | by apply Hsize].
Defined.

(** C3, as stated, fails: during Draining a connect event does add an
    entry to the registry. *)
Lemma connect_during_draining_changes_registry :
  ~ (shutdown_requested draining = true ->
     active_clients (exec (connect "c1" VNone) draining) = active_clients draining).
Proof.
  intros H. specialize (H eq_refl).
  assert (Hl : active_clients (exec (connect "c1" VNone) draining) !! "c1" = Some 0)
    by reflexivity.
  rewrite H in Hl. discriminate Hl.
Qed.

Lemma exec_run_broadcaster counter w :
  exec (run_broadcaster counter) w =
  if shutdown_requested w then
    with_trace (trace w ++ [BroadcasterStopped false]) (with_bg_task Returned w)
  else if (0 <? size (active_clients w))%nat then
    with_bg_task (Pending (InSleep (counter + 1) (monotonic w + seconds 10)) false)
      (with_trace
         (trace w ++
          [Emit "notification"
             (VDict [("id", VInt (counter + 1));
                     ("text", VStr ("Server notification #" +:+ pretty (counter + 1)));
                     ("time", VTime (wall w))]) None]) w)
  else with_bg_task (Pending (InSleep counter (monotonic w + seconds 10)) false) w.
Proof.
  unfold exec. rewrite run_broadcaster_eq, broadcaster_body_eq.
  destruct (shutdown_requested w); [done |].
  by destruct (0 <? size (active_clients w))%nat.
Qed.

Lemma exec_resume_bg_task w :
  exec resume_bg_task w =
  match bg_task w with
  | Pending _ true =>
      with_trace (trace w ++ [BroadcasterStopped true]) (with_bg_task Cancelled w)
  | Pending Fresh false => exec (run_broadcaster 0) w
  | Pending (InSleep counter deadline) false =>
      if deadline <=? monotonic w then exec (run_broadcaster counter) w else w
  | Returned | Cancelled => w
  end.
Proof.
  unfold exec at 1. monad_unfold resume_bg_task.
  destruct (bg_task w) as [[|counter deadline] [|]| |]; try done.
  by destruct (deadline <=? monotonic w).
Qed.

(** Opens every case of a turn of the background task in the goal. *)
Ltac resume_cases w :=
  rewrite ?exec_resume_bg_task, ?exec_run_broadcaster;
  destruct (bg_task w) as [[|? ?] [|]| |] eqn:?;
  rewrite ?exec_run_broadcaster;
  repeat match goal with
         | |- context [if ?b then _ else _] => destruct b eqn:?
         end;
  simpl.

(** ** What an action touches *)

Lemma run_action_registry a w :
  active_clients (run_action a w) =
  match a with
  | OnConnect sid _ => <[sid := monotonic w]> (active_clients w)
  | OnDisconnect sid => delete sid (active_clients w)
  | _ => active_clients w
  end.
Proof.
  destruct a as [sid environ|sid|sid data|dt|]; simpl; try done.
  - destruct (active_clients w !! sid) as [t|] eqn:Hsid; unfold exec.
    + rewrite disconnect_present; [done | by exists t].
    + rewrite disconnect_absent; [| done]. by rewrite delete_id.
  - by resume_cases w.
Qed.

Lemma run_action_flag a w :
  shutdown_requested (run_action a w) = shutdown_requested w.
Proof.
  destruct a as [sid environ|sid|sid data|dt|]; simpl; try done.
  - destruct (active_clients w !! sid) as [t|] eqn:Hsid; unfold exec.
    + rewrite disconnect_present; [done | by exists t].
    + by rewrite disconnect_absent.
  - by resume_cases w.
Qed.

Lemma run_action_start a w :
  shutdown_start_time (run_action a w) = shutdown_start_time w.
Proof.
  destruct a as [sid environ|sid|sid data|dt|]; simpl; try done.
  - destruct (active_clients w !! sid) as [t|] eqn:Hsid; unfold exec.
    + rewrite disconnect_present; [done | by exists t].
    + by rewrite disconnect_absent.
  - by resume_cases w.
Qed.


Lemma run_action_on_close a w : on_close (run_action a w) = on_close w.
Proof.
  destruct a as [sid environ|sid|sid data|dt|]; simpl; try done.
  - destruct (active_clients w !! sid) as [t|] eqn:Hsid; unfold exec.
    + rewrite disconnect_present; [done | by exists t].
    + by rewrite disconnect_absent.
  - by resume_cases w.
Qed.

Lemma run_actions_cons a acts w :
  run_actions (a :: acts) w = run_actions acts (run_action a w).
Proof. reflexivity. Qed.

Lemma run_actions_flag acts w :
  shutdown_requested (run_actions acts w) = shutdown_requested w.
Proof.
  revert w. induction acts as [|a acts IH]; intros w; [done |].
  by rewrite run_actions_cons, IH, run_action_flag.
Qed.

Lemma run_actions_start acts w :
  shutdown_start_time (run_actions acts w) = shutdown_start_time w.
Proof.
  revert w. induction acts as [|a acts IH]; intros w; [done |].
  by rewrite run_actions_cons, IH, run_action_start.
Qed.


Lemma run_actions_on_close acts w : on_close (run_actions acts w) = on_close w.
Proof.
  revert w. induction acts as [|a acts IH]; intros w; [done |].
  by rewrite run_actions_cons, IH, run_action_on_close.
Qed.

(** ** The size of the registry *)

Lemma present_true sid w : present sid w = true <-> is_Some (active_clients w !! sid).
Proof. unfold present. apply bool_decide_eq_true. Qed.

Lemma present_false sid w : present sid w = false <-> active_clients w !! sid = None.
Proof.
  unfold present. rewrite bool_decide_eq_false. symmetry. apply eq_None_not_Some.
Qed.

(** Every change of the size is a fresh connect or an effective
    disconnect. *)
Lemma size_balance evs w :
  (size (active_clients (run_actions evs w)) + effective_disconnects evs w =
   size (active_clients w) + fresh_connects evs w)%nat.
Proof.
  revert w. induction evs as [|a evs IH]; intros w; [simpl; lia |].
  rewrite run_actions_cons. simpl. specialize (IH (run_action a w)).
  rewrite run_action_registry in IH.
  destruct a as [sid environ|sid|sid data|dt|]; simpl in *; try lia.
  - destruct (present sid w) eqn:Hp.
    + apply present_true in Hp.
      rewrite (map_size_insert_Some sid _ _ Hp) in IH. lia.
    + apply present_false in Hp.
      rewrite (map_size_insert_None sid _ _ Hp) in IH. lia.
  - destruct (present sid w) eqn:Hp.
    + apply present_true in Hp.
      rewrite (map_size_delete_Some sid _ Hp) in IH.
      assert (size (active_clients w) <> 0)%nat.
      { intros Hz. apply map_size_empty_inv in Hz. rewrite Hz in Hp.
        rewrite lookup_empty in Hp. by destruct Hp. }
      lia.
    + apply present_false in Hp.
      rewrite (map_size_delete_None sid _ Hp) in IH. lia.
Qed.

(** C4, as amended: from an empty registry, the size is the number of
    connect events whose id was absent at the time of the connect minus the
    number of disconnect events whose id was present at the time of the
    disconnect; the difference is never negative. *)
Theorem size_counts_fresh_connects (evs : list action) (w : world) :
  active_clients w = ∅ ->
  (effective_disconnects evs w <= fresh_connects evs w)%nat /\
  Z.of_nat (size (active_clients (run_actions evs w))) =
    Z.of_nat (fresh_connects evs w) - Z.of_nat (effective_disconnects evs w).
Proof.
  intros Hempty. pose proof (size_balance evs w) as Hb.
  rewrite Hempty, map_size_empty in Hb. lia.
Qed.

Lemma size_counts_fresh_connects_witness :
  (effective_disconnects
     [OnConnect "c1" VNone; OnConnect "c1" VNone; OnDisconnect "c2";
      OnDisconnect "c1"; OnDisconnect "c1"; OnConnect "c3" VNone] idle
   <= fresh_connects
        [OnConnect "c1" VNone; OnConnect "c1" VNone; OnDisconnect "c2";
         OnDisconnect "c1"; OnDisconnect "c1"; OnConnect "c3" VNone] idle)%nat /\
  Z.of_nat
    (size (active_clients
       (run_actions
          [OnConnect "c1" VNone; OnConnect "c1" VNone; OnDisconnect "c2";
           OnDisconnect "c1"; OnDisconnect "c1"; OnConnect "c3" VNone] idle))) =
  Z.of_nat
    (fresh_connects
       [OnConnect "c1" VNone; OnConnect "c1" VNone; OnDisconnect "c2";
        OnDisconnect "c1"; OnDisconnect "c1"; OnConnect "c3" VNone] idle) -
  Z.of_nat
    (effective_disconnects
       [OnConnect "c1" VNone; OnConnect "c1" VNone; OnDisconnect "c2";
        OnDisconnect "c1"; OnDisconnect "c1"; OnConnect "c3" VNone] idle).
Proof. apply size_counts_fresh_connects. reflexivity. Defined.

(** C4, as stated, fails: two connect events with the same id leave a
    registry of size 1, not 2. *)
Lemma size_is_not_connects_minus_disconnects :
  Z.of_nat (size (active_clients
    (run_actions [OnConnect "c1" VNone; OnConnect "c1" VNone] idle))) <>
  Z.max 0
    (Z.of_nat (connect_events [OnConnect "c1" VNone; OnConnect "c1" VNone]) -
     Z.of_nat (effective_disconnects [OnConnect "c1" VNone; OnConnect "c1" VNone] idle)).
Proof. vm_compute. discriminate. Qed.

(** ** The ids of the notifications *)

Lemma exec_disconnect sid w :
  exec (disconnect sid) w =
  with_arrival
    (if present sid w then filter (fun s => s <> sid) (arrival w) else arrival w)
    (with_active_clients (delete sid (active_clients w)) w).
Proof.
  unfold exec. destruct (active_clients w !! sid) as [t|] eqn:Hsid.
  - rewrite disconnect_present; [| by exists t].
    by rewrite (proj2 (present_true sid w)) by by exists t.
  - rewrite disconnect_absent; [| done]. simpl.
    rewrite (proj2 (present_false sid w)) by done.
    rewrite delete_id by done. by destruct w.
Qed.

Lemma notification_ids_snoc tr o :
  notification_ids (tr ++ [o]) =
  notification_ids tr ++ match notification_id o with Some i => [i] | None => [] end.
Proof.
  unfold notification_ids. rewrite omap_app. simpl.
  by destruct (notification_id o).
Qed.

Lemma numbered_emit ids0 counter w tr t deadline :
  numbered ids0 w ->
  task_counter (bg_task w) = Some counter ->
  notification_ids tr = notification_ids (trace w) ++ [counter + 1] ->
  numbered ids0
    (with_bg_task (Pending (InSleep (counter + 1) deadline) false) (with_trace tr t)).
Proof.
  intros (k & Hids & Hk) Hc Htr. specialize (Hk _ Hc). subst counter.
  exists (S k). simpl. split.
  - rewrite Htr, Hids, <- (assoc_L (++)). f_equal.
    rewrite seqZ_S. do 2 f_equal. lia.
  - intros c [= <-]. lia.
Qed.

Lemma run_broadcaster_numbered ids0 counter w :
  numbered ids0 w ->
  task_counter (bg_task w) = Some counter ->
  numbered ids0 (exec (run_broadcaster counter) w).
Proof.
  intros Hw Hcounter. rewrite exec_run_broadcaster.
  destruct (shutdown_requested w).
  - destruct Hw as (k & Hids & Hk). exists k. simpl.
    by rewrite notification_ids_snoc, app_nil_r.
  - destruct (0 <? size (active_clients w))%nat.
    + apply (numbered_emit ids0 counter w); [done | done |].
      by rewrite notification_ids_snoc.
    + destruct Hw as (k & Hids & Hk). exists k. simpl. split; [done |].
      intros c [= <-]. by apply Hk.
Qed.

Lemma run_action_numbered ids0 a : preserves (numbered ids0) (run_action a).
Proof.
  intros w Hw. destruct a as [sid environ|sid|sid data|dt|]; simpl.
  - destruct Hw as (k & Hids & Hk). exists k. simpl.
    by rewrite notification_ids_snoc, app_nil_r.
  - by rewrite exec_disconnect.
  - destruct Hw as (k & Hids & Hk). exists k. simpl.
    by rewrite notification_ids_snoc, app_nil_r.
  - done.
  - rewrite exec_resume_bg_task.
    destruct (bg_task w) as [[|counter deadline] [|]| |] eqn:Ht; try done.
    + destruct Hw as (k & Hids & Hk). exists k. simpl.
      by rewrite notification_ids_snoc, app_nil_r.
    + apply run_broadcaster_numbered; [done | by rewrite Ht].
    + destruct Hw as (k & Hids & Hk). exists k. simpl.
      by rewrite notification_ids_snoc, app_nil_r.
    + destruct (deadline <=? monotonic w); [| done].
      apply run_broadcaster_numbered; [done | by rewrite Ht].
Qed.

Lemma run_actions_numbered ids0 acts : preserves (numbered ids0) (run_actions acts).
Proof. apply preserves_run_actions. intros a _. apply run_action_numbered. Qed.

Lemma run_action_silenced ids0 a : preserves (silenced ids0) (run_action a).
Proof.
  intros w [Hflag Hids]. split; [by rewrite run_action_flag |].
  destruct a as [sid environ|sid|sid data|dt|]; simpl.
  - by rewrite notification_ids_snoc, app_nil_r.
  - by rewrite exec_disconnect.
  - by rewrite notification_ids_snoc, app_nil_r.
  - done.
  - resume_cases w; rewrite ?notification_ids_snoc, ?app_nil_r; congruence.
Qed.

Lemma run_actions_silenced ids0 acts : preserves (silenced ids0) (run_actions acts).
Proof. apply preserves_run_actions. intros a _. apply run_action_silenced. Qed.

Lemma run_action_returned a : preserves (fun w => bg_task w = Returned) (run_action a).
Proof.
  intros w Hw. destruct a as [sid environ|sid|sid data|dt|]; simpl; try done.
  - by rewrite exec_disconnect.
  - by rewrite exec_resume_bg_task, Hw.
Qed.

(** ** Invariants of the shutdown sequence *)

Lemma exec_task_cancel w :
  exec task_cancel w =
  match bg_task w with
  | Pending c _ => with_bg_task (Pending c true) (with_trace (trace w ++ [TaskCancel]) w)
  | Returned | Cancelled => with_trace (trace w ++ [TaskCancel]) w
  end.
Proof. monad_unfold task_cancel. simpl. by destruct (bg_task w). Qed.

(** A property that every action keeps, and that reads nothing of the world
    but the ids emitted so far, the counter of the task and the flag, is
    kept by every step of the coordinator that leaves these alone. *)
Section invariant.
Variable I : world -> Prop.
Hypothesis I_action : forall a, preserves I (run_action a).
Hypothesis I_frame : forall w w',
  notification_ids (trace w') = notification_ids (trace w) ->
  task_counter (bg_task w') = task_counter (bg_task w) ->
  shutdown_requested w' = shutdown_requested w ->
  I w -> I w'.

Lemma log_inv o : notification_id o = None -> preserves I (exec (log o)).
Proof.
  intros Ho w. apply I_frame; [| done..]. simpl.
  by rewrite notification_ids_snoc, Ho, app_nil_r.
Qed.

Lemma run_actions_inv acts : preserves I (run_actions acts).
Proof. apply preserves_run_actions. intros a _. apply I_action. Qed.

Lemma suspend_inv : preserves I (exec suspend).
Proof. intros w Hw. apply run_actions_inv. by apply (I_frame w). Qed.

Lemma asyncio_sleep_inv d : preserves I (exec (asyncio_sleep d)).
Proof.
  unfold asyncio_sleep. preserve; [apply suspend_inv |].
  intros w. by apply I_frame.
Qed.

Lemma sio_disconnect_inv sid ignore_queue :
  preserves I (exec (sio_disconnect sid ignore_queue)).
Proof.
  unfold sio_disconnect. preserve; [by apply log_inv |].
  intros w. apply run_actions_inv.
Qed.

Lemma task_cancel_inv : preserves I (exec task_cancel).
Proof.
  intros w Hw. apply (log_inv TaskCancel) in Hw; [| done].
  rewrite exec_task_cancel.
  destruct (bg_task w) as [[|counter deadline] cancel| |] eqn:Ht;
    (eapply I_frame; [| | | exact Hw]); simpl; by rewrite ?Ht.
Qed.

Lemma await_inv : preserves I (exec await_bg_task).
Proof.
  unfold await_bg_task. preserve; [apply (I_action ResumeBroadcaster) |].
  case_match; preserve.
Qed.

Lemma drain_inv fuel remaining : preserves I (exec (drain fuel remaining)).
Proof.
  revert remaining. induction fuel as [|fuel IH]; intros remaining; simpl.
  - apply preserves_starve.
  - preserve; [by apply log_inv |].
    case_match; preserve; [apply asyncio_sleep_inv |].
    case_match; [apply IH | preserve].
Qed.

Lemma shutdown_inv fuel :
  preserves I (with_shutdown_requested true) ->
  preserves I (exec (lifespan_shutdown fuel)).
Proof.
  intros Hflag. unfold lifespan_shutdown, signal_shutdown, stop_broadcaster.
  preserve.
  - done.
  - by apply log_inv.
  - intros w. by apply I_frame.
  - by apply log_inv.
  - apply drain_inv.
  - unfold force_close. preserve. case_match; preserve.
    apply preserves_for_each. intros sid. apply sio_disconnect_inv.
  - apply task_cancel_inv.
  - apply await_inv.
Qed.
End invariant.

Lemma numbered_frame ids0 w w' :
  notification_ids (trace w') = notification_ids (trace w) ->
  task_counter (bg_task w') = task_counter (bg_task w) ->
  shutdown_requested w' = shutdown_requested w ->
  numbered ids0 w -> numbered ids0 w'.
Proof. intros Htr Ht _ (k & Hids & Hk). exists k. by rewrite Htr, Ht. Qed.

Lemma silenced_frame ids0 w w' :
  notification_ids (trace w') = notification_ids (trace w) ->
  task_counter (bg_task w') = task_counter (bg_task w) ->
  shutdown_requested w' = shutdown_requested w ->
  silenced ids0 w -> silenced ids0 w'.
Proof. intros Htr _ Hflag [Hf Hids]. split; congruence. Qed.

Lemma shutdown_numbered ids0 fuel :
  preserves (numbered ids0) (exec (lifespan_shutdown fuel)).
Proof.
  apply shutdown_inv.
  - apply run_action_numbered.
  - apply numbered_frame.
  - intros w (k & Hids & Hk). by exists k.
Qed.

Lemma shutdown_silenced ids0 fuel :
  preserves (silenced ids0) (exec (lifespan_shutdown fuel)).
Proof.
  apply shutdown_inv.
  - apply run_action_silenced.
  - apply silenced_frame.
  - by intros w [Hflag Hids].
Qed.

Lemma startup_numbered w :
  numbered (notification_ids (trace w)) (exec lifespan_startup w).
Proof.
  exists 0%nat. simpl. rewrite notification_ids_snoc. simpl.
  split; [by rewrite !app_nil_r | by intros c [= <-]].
Qed.

Lemma lifespan_numbered fuel w :
  numbered (notification_ids (trace w)) (exec (lifespan fuel) w).
Proof.
  unfold lifespan. rewrite exec_bind. simpl.
  pose proof (startup_numbered w) as Hstart. revert Hstart.
  generalize (exec lifespan_startup w) (notification_ids (trace w)).
  intros w1 ids0 Hw1. revert w1 Hw1.
  change (preserves (numbered ids0) (exec (suspend ;; lifespan_shutdown fuel))).
  preserve; [| apply shutdown_numbered].
  apply suspend_inv; [apply run_action_numbered | apply numbered_frame].
Qed.

(** ** The broadcaster *)

(** C6: with the flag unset and somebody registered, a pass of the
    broadcaster that starts with [counter] makes exactly one emit, the
    "notification" event with [{id: counter + 1, text: "Server notification
    #<counter + 1>", time: time.time()}], and parks with [counter + 1]; in a
    run that starts with a fresh task the first id is 1 and the ids
    increase strictly. *)
Theorem broadcaster_emits_one_per_tick (counter : Z) (acts : list action) (w : world) :
  (shutdown_requested w = false -> (0 < size (active_clients w))%nat ->
   exists w',
     broadcaster_body counter w = (Ok (Some (counter + 1)), w') /\
     trace w' =
       trace w ++
       [Emit "notification"
          (VDict [("id", VInt (counter + 1));
                  ("text", VStr ("Server notification #" +:+ pretty (counter + 1)));
                  ("time", VTime (wall w))]) None]) /\
  (bg_task w = Pending Fresh false ->
   exists new,
     notification_ids (trace (run_actions acts w)) = notification_ids (trace w) ++ new /\
     (forall id, new !! 0%nat = Some id -> id = 1) /\
     (forall i j a b, (i < j)%nat -> new !! i = Some a -> new !! j = Some b -> a < b)).
Proof.
  split.
  - intros Hflag Hsize. eexists. rewrite broadcaster_body_eq, Hflag.
    apply Nat.ltb_lt in Hsize. rewrite Hsize. by split.
  - intros Hfresh.
    destruct (run_actions_numbered (notification_ids (trace w)) acts w) as (k & Hids & _).
    { exists 0%nat. simpl. rewrite app_nil_r, Hfresh. split; [done |].
      by intros c [= <-]. }
    exists (seqZ 1 (Z.of_nat k)). split_and!; [done | |].
    + intros id Hid. apply lookup_seqZ in Hid. lia.
    + intros i j a b Hij Ha Hb. apply lookup_seqZ in Ha, Hb. lia.
Qed.

Lemma broadcaster_emits_one_per_tick_witness :
  (exists w',
     broadcaster_body 1 serving = (Ok (Some (1 + 1)), w') /\
     trace w' =
       trace serving ++
       [Emit "notification"
          (VDict [("id", VInt (1 + 1));
                  ("text", VStr ("Server notification #" +:+ pretty (1 + 1)));
                  ("time", VTime (wall serving))]) None]) /\
  (exists new,
     notification_ids (trace (run_actions morning idle)) =
       notification_ids (trace idle) ++ new /\
     (forall id, new !! 0%nat = Some id -> id = 1) /\
     (forall i j a b, (i < j)%nat -> new !! i = Some a -> new !! j = Some b -> a < b)).
Proof.
  split.
  - apply (broadcaster_emits_one_per_tick 1 morning serving);
      [reflexivity | vm_compute; lia].
  - apply (broadcaster_emits_one_per_tick 1 morning idle). reflexivity.
Defined.

(** C7: a pass of the broadcaster with an empty registry leaves the world
    as it is, so it emits nothing; with the flag set a pass returns at once,
    a parked task that gets its turn ends as [Returned], no action of the
    process emits a notification any more, neither does the shutdown
    sequence, and a task that has returned stays so. *)
Theorem broadcaster_silent_when_empty_or_stopped
    (counter deadline : Z) (fuel : nat) (acts : list action) (w : world) :
  (size (active_clients w) = 0%nat ->
   exists parked, broadcaster_body counter w = (Ok parked, w)) /\
  (shutdown_requested w = true ->
   broadcaster_body counter w = (Ok None, w) /\
   (bg_task w = Pending (InSleep counter deadline) false -> deadline <= monotonic w ->
    bg_task (exec resume_bg_task w) = Returned) /\
   notification_ids (trace (run_actions acts w)) = notification_ids (trace w) /\
   shutdown_requested (run_actions acts w) = true) /\
  notification_ids (trace (exec (lifespan_shutdown fuel) w)) = notification_ids (trace w) /\
  (bg_task w = Returned ->
   bg_task (run_actions acts w) = Returned /\
   trace (exec resume_bg_task w) = trace w).
Proof.
  split_and!.
  - intros Hsize. rewrite broadcaster_body_eq, Hsize. simpl.
    destruct (shutdown_requested w); by eexists.
  - intros Hflag. split_and!.
    + by rewrite broadcaster_body_eq, Hflag.
    + intros Ht Hdue. rewrite exec_resume_bg_task, Ht.
      apply Z.leb_le in Hdue. by rewrite Hdue, exec_run_broadcaster, Hflag.
    + by apply (run_actions_silenced (notification_ids (trace w)) acts w).
    + by rewrite run_actions_flag.
  - change (exec (lifespan_shutdown fuel) w)
      with (exec (lifespan_shutdown fuel) (with_shutdown_requested true w)).
    by apply (shutdown_silenced (notification_ids (trace w)) fuel
                (with_shutdown_requested true w)).
  - intros Ht. split.
    + by apply (preserves_run_actions (fun w => bg_task w = Returned) acts
                  (fun a _ => run_action_returned a) w).
    + by rewrite exec_resume_bg_task, Ht.
Qed.

Lemma broadcaster_silent_when_empty_or_stopped_witness :
  (exists parked, broadcaster_body 0 idle = (Ok parked, idle)) /\
  broadcaster_body 1 stopping = (Ok None, stopping) /\
  bg_task (exec resume_bg_task stopping) = Returned /\
  notification_ids (trace (run_actions morning stopping)) =
    notification_ids (trace stopping) /\
  bg_task (run_actions morning (exec resume_bg_task stopping)) = Returned.
Proof.
  destruct (broadcaster_silent_when_empty_or_stopped 0 0 0 morning idle)
    as (Hempty & _).
  destruct (broadcaster_silent_when_empty_or_stopped 1 10000 0 morning stopping)
    as (_ & Hstopped & _).
  destruct (broadcaster_silent_when_empty_or_stopped
              0 0 0 morning (exec resume_bg_task stopping))
    as (_ & _ & _ & Hreturned).
  destruct (Hstopped eq_refl) as (Hbody & Hturn & Hids & _).
  split_and!.
  - apply Hempty. reflexivity.
  - exact Hbody.
  - apply Hturn; [reflexivity | vm_compute; discriminate].
  - exact Hids.
  - apply Hreturned. reflexivity.
Defined.

(** C9: in every run of the process, whatever the script, the ids of the
    notifications emitted since startup are 1, 2, ..., k without a gap; a
    pending task holds [counter = k], the number of notifications emitted,
    and a pass with an empty registry parks with the counter it started
    with. *)
Theorem notification_ids_are_consecutive
    (fuel : nat) (counter : Z) (acts : list action) (w : world) :
  (exists k : nat,
     notification_ids (trace (exec (lifespan fuel) w)) =
       notification_ids (trace w) ++ seqZ 1 (Z.of_nat k)) /\
  (bg_task w = Pending Fresh false ->
   exists k : nat,
     notification_ids (trace (run_actions acts w)) =
       notification_ids (trace w) ++ seqZ 1 (Z.of_nat k) /\
     forall c, task_counter (bg_task (run_actions acts w)) = Some c -> c = Z.of_nat k) /\
  (shutdown_requested w = false -> size (active_clients w) = 0%nat ->
   broadcaster_body counter w = (Ok (Some counter), w)).
Proof.
  split_and!.
  - destruct (lifespan_numbered fuel w) as (k & Hids & _). by exists k.
  - intros Hfresh.
    apply (run_actions_numbered (notification_ids (trace w)) acts w).
    exists 0%nat. simpl. rewrite app_nil_r, Hfresh. split; [done |].
    by intros c [= <-].
  - intros Hflag Hsize. by rewrite broadcaster_body_eq, Hflag, Hsize.
Qed.

Lemma notification_ids_are_consecutive_witness :
  (exists k : nat,
     notification_ids (trace (run_actions morning idle)) =
       notification_ids (trace idle) ++ seqZ 1 (Z.of_nat k) /\
     forall c, task_counter (bg_task (run_actions morning idle)) = Some c ->
               c = Z.of_nat k) /\
  broadcaster_body 7 idle = (Ok (Some 7), idle).
Proof.
  split.
  - apply (notification_ids_are_consecutive 0 7 morning idle). reflexivity.
  - apply (notification_ids_are_consecutive 0 7 morning idle); reflexivity.
Defined.

(** The morning of [morning]: three notifications, one tick skipped. *)
Example morning_ids :
  notification_ids (trace (run_actions morning idle)) = [1; 2; 3] /\
  task_counter (bg_task (run_actions morning idle)) = Some 3.
Proof. split; reflexivity. Qed.

(** ** What the coordinator adds to the trace *)

Lemma appends_intro Q (f : world -> world) :
  (forall w, exists new, trace (f w) = trace w ++ new /\ Forall Q new) ->
  appends Q f.
Proof.
  intros Hf tr0 w (new & Hnew & HQ). destruct (Hf w) as (new' & Hnew' & HQ').
  exists (new ++ new'). split.
  - by rewrite Hnew', Hnew, (assoc_L (++)).
  - by apply Forall_app.
Qed.

Lemma appends_elim Q (f : world -> world) w :
  appends Q f -> exists new, trace (f w) = trace w ++ new /\ Forall Q new.
Proof.
  intros Hf. apply (Hf (trace w) w). exists []. by rewrite app_nil_r.
Qed.

Lemma appends_weaken (Q Q' : obs -> Prop) (f : world -> world) :
  (forall o, Q o -> Q' o) -> appends Q f -> appends Q' f.
Proof.
  intros HQ Hf. apply appends_intro. intros w.
  destruct (appends_elim Q f w Hf) as (new & Hnew & Hall).
  exists new. split; [done |]. by eapply Forall_impl.
Qed.

Lemma extended_frame tr0 Q w w' :
  trace w' = trace w -> extended tr0 Q w -> extended tr0 Q w'.
Proof. intros Htr (new & Hnew & HQ). exists new. by rewrite Htr. Qed.

Lemma log_appends (Q : obs -> Prop) o : Q o -> appends Q (exec (log o)).
Proof.
  intros Ho. apply appends_intro. intros w. exists [o]. split; [done |].
  by apply Forall_singleton.
Qed.

Lemma run_action_appends a : appends ambient (run_action a).
Proof.
  apply appends_intro. intros w.
  destruct a as [sid environ|sid|sid data|dt|]; simpl.
  - eexists. split; [done |]. by apply Forall_singleton.
  - rewrite exec_disconnect. exists []. by rewrite app_nil_r.
  - eexists. split; [done |]. by apply Forall_singleton.
  - exists []. by rewrite app_nil_r.
  - resume_cases w;
      first [ by exists []; rewrite app_nil_r
            | by eexists; split; [done | apply Forall_singleton] ].
Qed.

Lemma run_actions_appends acts : appends ambient (run_actions acts).
Proof.
  intros tr0. apply preserves_run_actions. intros a _. apply run_action_appends.
Qed.

Section appending.
Variable Q : obs -> Prop.
Hypothesis Q_ambient : forall o, ambient o -> Q o.

Lemma run_actions_appends_more acts : appends Q (run_actions acts).
Proof. apply (appends_weaken ambient Q _ Q_ambient), run_actions_appends. Qed.

Lemma suspend_appends : appends Q (exec suspend).
Proof.
  intros tr0 w Hw. apply run_actions_appends_more.
  by apply (extended_frame tr0 Q w).
Qed.

Lemma asyncio_sleep_appends d : appends Q (exec (asyncio_sleep d)).
Proof.
  intros tr0. unfold asyncio_sleep. preserve; [apply suspend_appends |].
  intros w. by apply extended_frame.
Qed.

Lemma sio_disconnect_appends sid ignore_queue :
  Q (ForceDisconnect sid ignore_queue) ->
  appends Q (exec (sio_disconnect sid ignore_queue)).
Proof.
  intros HQ tr0. unfold sio_disconnect. preserve; [by apply log_appends |].
  intros w. apply run_actions_appends_more.
Qed.

Lemma drain_appends fuel remaining :
  (forall active r, Q (Poll active r)) ->
  appends Q (exec (drain fuel remaining)).
Proof.
  intros HQ tr0. revert remaining.
  induction fuel as [|fuel IH]; intros remaining; simpl.
  - apply preserves_starve.
  - preserve; [by apply log_appends |].
    case_match; preserve; [apply asyncio_sleep_appends |].
    case_match; [apply IH | preserve].
Qed.

Lemma force_close_appends :
  (forall sid ignore_queue, Q (ForceDisconnect sid ignore_queue)) ->
  appends Q (exec force_close).
Proof.
  intros HQ tr0. unfold force_close. preserve. case_match; preserve.
  apply preserves_for_each. intros sid. by apply sio_disconnect_appends.
Qed.
End appending.

(** ** The order of the registry *)

Lemma run_action_arrival a w :
  arrival (run_action a w) =
  match a with
  | OnConnect sid _ => if present sid w then arrival w else arrival w ++ [sid]
  | OnDisconnect sid =>
      if present sid w then filter (fun s => s <> sid) (arrival w) else arrival w
  | _ => arrival w
  end.
Proof.
  destruct a as [sid environ|sid|sid data|dt|]; simpl; try done.
  - by rewrite exec_disconnect.
  - by resume_cases w.
Qed.

(** A connect of a new sid appends it, a disconnect removes it: the list
    stays the list of the keys. *)
Lemma run_action_keys_listed a : preserves keys_listed (run_action a).
Proof.
  intros w [Hnodup Hdom]. unfold keys_listed.
  rewrite run_action_arrival, run_action_registry.
  destruct a as [sid environ|sid|sid data|dt|]; try done.
  - destruct (present sid w) eqn:Hp.
    + apply present_true, elem_of_dom in Hp. split; [done |].
      rewrite dom_insert_L, <- Hdom. apply subseteq_union_1_L.
      by apply singleton_subseteq_l.
    + apply present_false, not_elem_of_dom in Hp. split.
      * apply NoDup_app. split_and!; [done | | apply NoDup_singleton].
        intros x Hx ->%list_elem_of_singleton. apply Hp.
        rewrite Hdom. by apply elem_of_list_to_set.
      * rewrite dom_insert_L, list_to_set_app_L, Hdom. simpl.
        rewrite (right_id_L ∅ (∪)). apply (comm_L (∪)).
  - destruct (present sid w) eqn:Hp.
    + split; [by apply NoDup_filter |].
      rewrite dom_delete_L, Hdom. apply set_eq. intros x.
      rewrite elem_of_difference, !elem_of_list_to_set, list_elem_of_filter.
      rewrite elem_of_singleton. tauto.
    + apply present_false, not_elem_of_dom in Hp. split; [done |].
      rewrite dom_delete_L, <- Hdom. apply difference_disjoint_L.
      by apply disjoint_singleton_r.
Qed.

Lemma keys_listed_length w :
  keys_listed w -> length (arrival w) = size (active_clients w).
Proof. intros [Hnodup Hdom]. by rewrite <- size_dom, Hdom, size_list_to_set. Qed.

Lemma keys_listed_elem w sid :
  keys_listed w -> sid ∈ arrival w <-> is_Some (active_clients w !! sid).
Proof. intros [_ Hdom]. by rewrite <- elem_of_dom, Hdom, elem_of_list_to_set. Qed.

(** ** Sleeping *)

Lemma asyncio_sleep_eq d w :
  asyncio_sleep d w =
  (Ok tt,
   let w' := run_actions (List.hd [] (script w)) (with_script (List.tl (script w)) w) in
   tick (Z.max 0 (monotonic w + d - monotonic w')) w').
Proof. reflexivity. Qed.



Lemma run_action_timeless a w :
  timeless a = true -> monotonic (run_action a w) = monotonic w.
Proof.
  destruct a as [sid environ|sid|sid data|dt|]; simpl; try done.
  - by rewrite exec_disconnect.
  - intros _. by resume_cases w.
Qed.

Lemma sleep_start d w :
  shutdown_start_time (exec (asyncio_sleep d) w) = shutdown_start_time w.
Proof. unfold exec. rewrite asyncio_sleep_eq. simpl. by rewrite run_actions_start. Qed.

Lemma sleep_flag d w :
  shutdown_requested (exec (asyncio_sleep d) w) = shutdown_requested w.
Proof. unfold exec. rewrite asyncio_sleep_eq. simpl. by rewrite run_actions_flag. Qed.

Lemma sleep_on_close d w : on_close (exec (asyncio_sleep d) w) = on_close w.
Proof. unfold exec. rewrite asyncio_sleep_eq. simpl. by rewrite run_actions_on_close. Qed.


(** A sleep lasts at least as long as it was asked to. *)
Lemma sleep_at_least d w : monotonic w + d <= monotonic (exec (asyncio_sleep d) w).
Proof. unfold exec. rewrite asyncio_sleep_eq. simpl. lia. Qed.



(** ** The drain loop *)

Lemma drain_step fuel remaining w :
  drain (S fuel) remaining w =
  let w1 := exec (log (Poll (size (active_clients w)) remaining)) w in
  if (0 <? size (active_clients w))%nat && (0 <? remaining) then
    let w2 := exec (asyncio_sleep (seconds 5)) w1 in
    match shutdown_start_time w2 with
    | Some start =>
        drain fuel (Z.max 0 (MAX_GRACE_PERIOD - (monotonic w2 - start))) w2
    | None => (Raise TypeError, w2)
    end
  else (Ok tt, w1).
Proof.
  cbn [drain]. unfold len_active_clients, time_monotonic.
  rewrite bind_gets. rewrite (bind_exec (log _) _ w tt) by reflexivity.
  cbv zeta.
  destruct ((0 <? size (active_clients w))%nat && (0 <? remaining)); [| done].
  rewrite (bind_exec (asyncio_sleep _) _ _ tt) by reflexivity.
  rewrite !bind_gets.
  by destruct (shutdown_start_time _).
Qed.

(** With a budget of [5 * f] seconds left, [f] sleeps end the loop. *)
Lemma drain_terminates fuel : forall (f : nat) remaining w start,
  shutdown_start_time w = Some start ->
  remaining <= seconds 5 * Z.of_nat f ->
  remaining_at start w <= seconds 5 * Z.of_nat f ->
  (f < fuel)%nat ->
  fst (drain fuel remaining w) = Ok tt.
Proof.
  induction fuel as [|fuel IH]; intros f remaining w start Hstart Hr Hat Hf; [lia |].
  rewrite drain_step. cbv zeta.
  destruct ((0 <? size (active_clients w))%nat && (0 <? remaining)) eqn:Hcond; [| done].
  apply andb_true_iff in Hcond as [_ Hpos]. apply Z.ltb_lt in Hpos.
  rewrite sleep_start. simpl. rewrite Hstart.
  set (w1 := exec (log (Poll (size (active_clients w)) remaining)) w).
  pose proof (sleep_at_least (seconds 5) w1) as Hslept.
  change (monotonic w1) with (monotonic w) in Hslept.
  destruct f as [|f]; [unfold seconds in *; lia |].
  apply (IH f _ _ start).
  - by rewrite sleep_start.
  - unfold remaining_at, seconds in *. lia.
  - unfold remaining_at, seconds in *. lia.
  - lia.
Qed.

(** ** The shutdown sequence, piece by piece *)

Lemma signal_shutdown_eq w :
  signal_shutdown w =
  (Ok tt,
   with_trace (trace w ++ [FlagSet; StartRecorded (monotonic w)])
     (with_shutdown_start_time (Some (monotonic w))
        (with_shutdown_requested true w))).
Proof.
  monad_unfold signal_shutdown. simpl. unfold with_trace. simpl.
  by rewrite <- (assoc_L (++)).
Qed.

Lemma for_each_ok {A} (l : list A) (body : A -> M unit) w :
  (forall x w, fst (body x w) = Ok tt) -> fst (for_each l body w) = Ok tt.
Proof.
  intros Hbody. revert w. induction l as [|x l IH]; intros w; [done |].
  simpl. by rewrite (bind_exec _ _ _ tt).
Qed.

Lemma force_close_ok w : fst (force_close w) = Ok tt.
Proof.
  unfold force_close, len_active_clients. rewrite !bind_gets.
  destruct (0 <? size (active_clients w))%nat; [| done].
  rewrite bind_gets. by apply for_each_ok.
Qed.

Lemma stop_broadcaster_eq w :
  stop_broadcaster w =
  (Ok tt,
   match bg_task w with
   | Pending _ _ =>
       with_trace (trace w ++ [TaskCancel; BroadcasterStopped true])
         (with_bg_task Cancelled w)
   | Returned | Cancelled => with_trace (trace w ++ [TaskCancel]) w
   end).
Proof.
  destruct w as [clients sids flag start mono wl t scr close tr].
  destruct t as [[|counter deadline] cancel| |]; cbv -[app];
    by rewrite <- ?(assoc_L (++)).
Qed.

Lemma stop_broadcaster_ok w : stop_broadcaster w = (Ok tt, exec stop_broadcaster w).
Proof. unfold exec. by rewrite stop_broadcaster_eq. Qed.

Lemma lifespan_shutdown_eq fuel w :
  lifespan_shutdown fuel w =
  match drain fuel MAX_GRACE_PERIOD (exec signal_shutdown w) with
  | (Ok _, w') => (Ok tt, exec stop_broadcaster (exec force_close w'))
  | (Raise e, w') => (Raise e, w')
  | (Starved, w') => (Starved, w')
  end.
Proof.
  unfold lifespan_shutdown.
  rewrite (bind_exec signal_shutdown _ w tt); [| by rewrite signal_shutdown_eq].
  cbv zeta. unfold bind at 1.
  destruct (drain fuel MAX_GRACE_PERIOD (exec signal_shutdown w)) as [[[]|e|] w'];
    [| done..].
  rewrite (bind_exec force_close _ w' tt); [| apply force_close_ok].
  apply stop_broadcaster_ok.
Qed.

Lemma drain_first_poll fuel remaining w :
  exists rest,
    trace (exec (drain (S fuel) remaining) w) =
      trace w ++ Poll (size (active_clients w)) remaining :: rest /\
    Forall drain_obs rest.
Proof.
  assert (Hext : extended (trace w ++ [Poll (size (active_clients w)) remaining])
                   drain_obs (exec (drain (S fuel) remaining) w)).
  { unfold exec. rewrite drain_step. cbv zeta.
    assert (Hlog : extended (trace w ++ [Poll (size (active_clients w)) remaining])
                     drain_obs (exec (log (Poll (size (active_clients w)) remaining)) w)).
    { exists []. by rewrite app_nil_r. }
    destruct ((0 <? size (active_clients w))%nat && (0 <? remaining)); [| done].
    apply (asyncio_sleep_appends drain_obs) with (d := seconds 5) in Hlog;
      [| by intros []].
    destruct (shutdown_start_time _); [| done].
    revert Hlog. apply drain_appends; [by intros [] | done]. }
  destruct Hext as (rest & Htrace & Hrest). exists rest.
  by rewrite Htrace, <- (assoc_L (++)).
Qed.

Lemma signalled_remaining w :
  remaining_at (monotonic w) (exec signal_shutdown w) = MAX_GRACE_PERIOD.
Proof.
  unfold exec. rewrite signal_shutdown_eq. unfold remaining_at. simpl.
  unfold MAX_GRACE_PERIOD, seconds. lia.
Qed.

(** C1, as amended: the coordinator sets the flag and records the start
    time, then at once polls the size of the registry; [bg_task.cancel()]
    comes after everything the drain loop and the forced disconnection do:
    no poll of the registry and no forced disconnection follows it, and
    when the sequence is over the broadcaster's task has ended.  With fuel
    for the 361 tests of the loop the sequence always completes. *)
Theorem shutdown_polls_before_cancel (fuel : nat) (w : world) :
  (361 <= fuel)%nat ->
  exists w' mid after,
    lifespan_shutdown fuel w = (Ok tt, w') /\
    trace w' =
      trace w ++
      [FlagSet; StartRecorded (monotonic w);
       Poll (size (active_clients w)) MAX_GRACE_PERIOD] ++
      mid ++ TaskCancel :: after /\
    (TaskCancel ∉ mid) /\
    polls after = [] /\
    forced after = [] /\
    (bg_task w' = Returned \/ bg_task w' = Cancelled).
Proof.
  intros Hfuel. rewrite lifespan_shutdown_eq.
  assert (Hok : fst (drain fuel MAX_GRACE_PERIOD (exec signal_shutdown w)) = Ok tt).
  { apply (drain_terminates fuel 360 _ _ (monotonic w)).
    - unfold exec. by rewrite signal_shutdown_eq.
    - unfold MAX_GRACE_PERIOD, seconds. lia.
    - rewrite signalled_remaining. unfold MAX_GRACE_PERIOD, seconds. lia.
    - lia. }
  destruct fuel as [|fuel]; [lia |].
  destruct (drain_first_poll fuel MAX_GRACE_PERIOD (exec signal_shutdown w))
    as (rest & Hdrain & Hrest).
  unfold exec in Hdrain at 1.
  destruct (drain (S fuel) MAX_GRACE_PERIOD (exec signal_shutdown w)) as [r w2].
  cbn [fst snd] in Hok, Hdrain. rewrite Hok.
  destruct (appends_elim close_obs (exec force_close) w2) as (closing & Hclose & Hclosing).
  { apply force_close_appends; [by intros [] | done]. }
  set (w3 := exec force_close w2) in *.
  exists (exec stop_broadcaster w3), (rest ++ closing),
    (match bg_task w3 with
     | Pending _ _ => [BroadcasterStopped true]
     | _ => []
     end).
  split_and!.
  - done.
  - unfold exec at 1. rewrite stop_broadcaster_eq.
    assert (Htrace : trace w3 ++ [TaskCancel] =
              trace w ++
              [FlagSet; StartRecorded (monotonic w);
               Poll (size (active_clients w)) MAX_GRACE_PERIOD] ++
              (rest ++ closing) ++ [TaskCancel]).
    { rewrite Hclose, Hdrain. unfold exec. rewrite signal_shutdown_eq. simpl.
      by rewrite <- !(assoc_L (++)). }
    destruct (bg_task w3); simpl.
    + change [TaskCancel; BroadcasterStopped true]
        with ([TaskCancel] ++ [BroadcasterStopped true]).
      rewrite (assoc_L (++)), Htrace. by rewrite <- !(assoc_L (++)).
    + rewrite Htrace. by rewrite <- !(assoc_L (++)).
    + rewrite Htrace. by rewrite <- !(assoc_L (++)).
  - intros [Hin|Hin]%elem_of_app.
    + by apply (proj1 (Forall_forall _ _) Hrest) in Hin.
    + by apply (proj1 (Forall_forall _ _) Hclosing) in Hin.
  - by destruct (bg_task w3).
  - by destruct (bg_task w3).
  - unfold exec. rewrite stop_broadcaster_eq. simpl.
    destruct (bg_task w3) eqn:Ht; simpl; auto.
Qed.

Lemma shutdown_polls_before_cancel_witness :
  exists w' mid after,
    lifespan_shutdown 361 serving = (Ok tt, w') /\
    trace w' =
      trace serving ++
      [FlagSet; StartRecorded (monotonic serving);
       Poll (size (active_clients serving)) MAX_GRACE_PERIOD] ++
      mid ++ TaskCancel :: after /\
    (TaskCancel ∉ mid) /\
    polls after = [] /\
    forced after = [] /\
    (bg_task w' = Returned \/ bg_task w' = Cancelled).
Proof. apply (shutdown_polls_before_cancel 361 serving). lia. Defined.

(** C1, as stated, fails: in the run of [one_visit] the broadcaster has
    emitted its first notification and is parked in its sleep when the
    coordinator reads the size of the registry, twice; the task is cancelled
    after that. *)
Lemma poll_precedes_broadcaster_stop :
  fst (lifespan 2 one_visit) = Ok tt /\
  trace (exec (lifespan 2) one_visit) =
    [TaskCreated;
     Emit "welcome" (VDict [("msg", VStr "Welcome! Real-time notifications started")]) None;
     Emit "notification"
       (VDict [("id", VInt 1); ("text", VStr "Server notification #1");
               ("time", VTime 0)]) None;
     FlagSet; StartRecorded 0;
     Poll 1 MAX_GRACE_PERIOD; Poll 0 (seconds 1795);
     TaskCancel; BroadcasterStopped true] /\
  polls_after_stop false (trace (exec (lifespan 2) one_visit)) <> true.
Proof. split_and!; [reflexivity | reflexivity | vm_compute; discriminate]. Qed.

(** ** Polls and forced disconnections in the trace *)

Lemma polls_app tr1 tr2 : polls (tr1 ++ tr2) = polls tr1 ++ polls tr2.
Proof. apply omap_app. Qed.

Lemma forced_app tr1 tr2 : forced (tr1 ++ tr2) = forced tr1 ++ forced tr2.
Proof. apply omap_app. Qed.

Lemma polls_ambient tr : Forall ambient tr -> polls tr = [].
Proof.
  induction 1 as [|o tr Ho _ IH]; [done |].
  destruct o; try done; apply IH.
Qed.

Lemma forced_ambient tr : Forall ambient tr -> forced tr = [].
Proof.
  induction 1 as [|o tr Ho _ IH]; [done |].
  destruct o; try done; apply IH.
Qed.

Lemma forced_drain_obs tr : Forall drain_obs tr -> forced tr = [].
Proof.
  induction 1 as [|o tr Ho _ IH]; [done |].
  destruct o; try done; apply IH.
Qed.

Lemma sleep_trace d w :
  exists new,
    trace (exec (asyncio_sleep d) w) = trace w ++ new /\ Forall ambient new.
Proof. apply appends_elim, asyncio_sleep_appends. auto. Qed.




(** ** Closing the stragglers *)

Lemma sio_disconnect_trace sid ignore_queue w :
  exists new,
    trace (exec (sio_disconnect sid ignore_queue) w) =
      trace w ++ ForceDisconnect sid ignore_queue :: new /\
    Forall ambient new.
Proof.
  destruct (appends_elim ambient
              (run_actions (on_close w sid))
              (exec (log (ForceDisconnect sid ignore_queue)) w)
              (run_actions_appends _)) as (new & Hnew & Hambient).
  exists new. split; [| done].
  change (exec (sio_disconnect sid ignore_queue) w)
    with (run_actions (on_close w sid) (exec (log (ForceDisconnect sid ignore_queue)) w)).
  rewrite Hnew. simpl. by rewrite <- (assoc_L (++)).
Qed.

(** The loop over [list(active_clients)] calls [sio.disconnect] once for
    every sid of the list, in order, whatever the transport does in
    between. *)
Lemma close_all_trace (sids : list string) : forall w,
  exists new,
    trace (exec (for_each sids (fun sid => sio_disconnect sid true)) w) =
      trace w ++ new /\
    forced new = sids /\
    polls new = [].
Proof.
  induction sids as [|sid sids IH]; intros w.
  - exists []. by rewrite app_nil_r.
  - cbn [for_each]. rewrite exec_bind.
    change (fst (sio_disconnect sid true w)) with (Ok (A:=unit) tt). cbv iota.
    destruct (sio_disconnect_trace sid true w) as (new1 & Hnew1 & Hambient).
    destruct (IH (exec (sio_disconnect sid true) w)) as (new2 & Hnew2 & Hforced & Hpolls).
    exists (ForceDisconnect sid true :: new1 ++ new2). split_and!.
    + rewrite Hnew2, Hnew1. by rewrite <- (assoc_L (++)).
    + change (ForceDisconnect sid true :: new1 ++ new2)
        with ([ForceDisconnect sid true] ++ new1 ++ new2).
      by rewrite !forced_app, (forced_ambient new1 Hambient), Hforced.
    + change (ForceDisconnect sid true :: new1 ++ new2)
        with ([ForceDisconnect sid true] ++ new1 ++ new2).
      by rewrite !polls_app, (polls_ambient new1 Hambient), Hpolls.
Qed.

Lemma exec_force_close w :
  (0 < size (active_clients w))%nat ->
  exec force_close w =
  exec (for_each (arrival w) (fun sid => sio_disconnect sid true)) w.
Proof.
  intros Hsize%Nat.ltb_lt. unfold exec, force_close, len_active_clients.
  by rewrite !bind_gets, Hsize, bind_gets.
Qed.




(** ** Runs *)

(** The scenario of the test suite: connect, message, disconnect. *)
Example connect_message_disconnect :
  let w := exec (connect "sid-test" VNone ;;
                 message "sid-test" (VDict [("x", VInt 1)]) ;;
                 disconnect "sid-test") idle in
  trace w =
    [Emit "welcome" (VDict [("msg", VStr "Welcome! Real-time notifications started")]) None;
     Emit "message"
       (VDict [("from", VStr "sid-test"); ("data", VDict [("x", VInt 1)])]) None] /\
  size (active_clients w) = 0%nat.
Proof. split; reflexivity. Qed.

(** One client, one tick: one notification with id 1; with the flag set
    the next turn of the task emits nothing and the task returns. *)
Example one_tick_then_shutdown :
  notification_ids (trace serving) = [1] /\
  trace (exec resume_bg_task stopping) = trace serving ++ [BroadcasterStopped false] /\
  bg_task (exec resume_bg_task stopping) = Returned.
Proof. split_and!; reflexivity. Qed.

(** A shutdown with nobody connected ends without a forced disconnection
    and without a sleep. *)
Example shutdown_of_idle :
  lifespan_shutdown 1 idle =
    (Ok tt,
     with_trace
       [FlagSet; StartRecorded 0; Poll 0 MAX_GRACE_PERIOD;
        TaskCancel; BroadcasterStopped true]
       (with_bg_task Cancelled draining)).
Proof. reflexivity. Qed.

(** A client that leaves during the first sleep: the graceful path. *)
Example shutdown_graceful :
  let w := exec (lifespan_shutdown 361)
             (with_script [[OnDisconnect "c1"]] serving) in
  polls (trace w) = [(1%nat, MAX_GRACE_PERIOD); (0%nat, seconds 1795)] /\
  forced (trace w) = [] /\
  monotonic w = seconds 5.
Proof. vm_compute. done. Qed.

(** A client that connects while the coordinator drains is counted by the
    next test of the loop. *)
Example connect_while_draining :
  let w := exec (lifespan_shutdown 361)
             (with_script
                [[OnConnect "c2" VNone]; [OnDisconnect "c1"; OnDisconnect "c2"]]
                serving) in
  polls (trace w) =
    [(1%nat, MAX_GRACE_PERIOD); (2%nat, seconds 1795); (0%nat, seconds 1790)] /\
  forced (trace w) = [].
Proof. vm_compute. done. Qed.

(** Two clients that stay: the first sleep lasts seven seconds, so the loop
    ends two seconds after the expiry, and both clients are disconnected. *)
Example shutdown_of_crowded :
  let w := exec (lifespan_shutdown 361) crowded in
  fst (lifespan_shutdown 361 crowded) = Ok tt /\
  forced (trace w) = ["c1"; "c2"] /\
  length (polls (trace w)) = 361%nat /\
  last (polls (trace w)) = Some (2%nat, 0) /\
  monotonic w = seconds 1802 /\
  size (active_clients w) = 0%nat /\
  bg_task w = Returned.
Proof. vm_compute. done. Qed.

(** * Further properties of the handlers, the broadcaster and the shutdown *)

(** ** The registry under [connect] and [disconnect] *)

(** A connect followed by a disconnect of the same id returns normally and
    leaves the registry without that id, whatever it held before: the
    registry is as it was when the id was new. *)
Theorem connect_then_disconnect (sid : string) (environ : value) (w : world) :
  fst ((connect sid environ ;; disconnect sid) w) = Ok tt /\
  active_clients (exec (connect sid environ ;; disconnect sid) w) =
    delete sid (active_clients w) /\
  (active_clients w !! sid = None ->
   active_clients (exec (connect sid environ ;; disconnect sid) w) = active_clients w).
Proof.
  assert (Hreg : active_clients (exec (connect sid environ ;; disconnect sid) w) =
                 delete sid (active_clients w)).
  { rewrite exec_bind, connect_eq. cbn [fst]. rewrite exec_disconnect.
    unfold exec. rewrite connect_eq. simpl. apply delete_insert_eq. }
  split_and!.
  - rewrite (bind_exec _ _ _ tt); [| by rewrite connect_eq].
    destruct (active_clients (exec (connect sid environ) w) !! sid) as [t|] eqn:Hsid.
    + rewrite disconnect_present; [done | by exists t].
    + by rewrite disconnect_absent.
  - exact Hreg.
  - intros Hnone. rewrite Hreg. by apply delete_id.
Qed.

Lemma connect_then_disconnect_witness :
  active_clients (exec (connect "c2" VNone ;; disconnect "c2") serving) =
  active_clients serving.
Proof. apply (connect_then_disconnect "c2" VNone serving). reflexivity. Defined.

(** A connect stamps its id with the reading of [time.monotonic()], leaves
    every other entry as it is, and for an id that is already registered
    keeps the size: a duplicate connect only refreshes the timestamp. *)
Theorem connect_touches_one_entry (sid other : string) (environ : value) (w : world) :
  active_clients (exec (connect sid environ) w) !! sid = Some (monotonic w) /\
  (other <> sid ->
   active_clients (exec (connect sid environ) w) !! other = active_clients w !! other) /\
  (is_Some (active_clients w !! sid) ->
   size (active_clients (exec (connect sid environ) w)) = size (active_clients w)).
Proof.
  unfold exec. rewrite connect_eq. simpl. split_and!.
  - apply lookup_insert_eq.
  - intros Hne. by apply lookup_insert_ne.
  - apply map_size_insert_Some.
Qed.

Lemma connect_touches_one_entry_witness :
  active_clients (exec (connect "c1" VNone) (tick 3000 serving)) !! "c1" = Some 3000 /\
  active_clients (exec (connect "c2" VNone) serving) !! "c1" =
    active_clients serving !! "c1" /\
  size (active_clients (exec (connect "c1" VNone) (tick 3000 serving))) =
    size (active_clients (tick 3000 serving)).
Proof.
  split_and!.
  - apply (connect_touches_one_entry "c1" "c2" VNone (tick 3000 serving)).
  - by apply (connect_touches_one_entry "c2" "c1" VNone serving).
  - apply (connect_touches_one_entry "c1" "c2" VNone (tick 3000 serving)).
    by exists 0.
Defined.

(** A disconnect leaves every other entry as it is, removes at most one
    entry, and a second disconnect of the same id changes nothing at all. *)
Theorem disconnect_touches_one_entry (sid other : string) (w : world) :
  (other <> sid ->
   active_clients (exec (disconnect sid) w) !! other = active_clients w !! other) /\
  (size (active_clients w) <= S (size (active_clients (exec (disconnect sid) w))))%nat /\
  exec (disconnect sid) (exec (disconnect sid) w) = exec (disconnect sid) w.
Proof.
  split_and!.
  - intros Hne. rewrite exec_disconnect. simpl. by apply lookup_delete_ne.
  - rewrite exec_disconnect. simpl. rewrite map_size_delete.
    destruct (active_clients w !! sid); simpl; lia.
  - unfold exec at 1. rewrite disconnect_absent; [done |].
    rewrite exec_disconnect. simpl. apply lookup_delete_eq.
Qed.

Lemma disconnect_touches_one_entry_witness :
  active_clients (exec (disconnect "c2") serving) !! "c1" =
  active_clients serving !! "c1".
Proof. by apply (disconnect_touches_one_entry "c2" "c1" serving). Defined.

(** ** The broadcaster only reads *)

(** A turn of the background task, in whatever state, returns normally and
    touches nothing but the task itself and the trace: the registry, the
    flag, the start time, the clocks and the script are as before. *)
Theorem broadcaster_only_reads (w : world) :
  fst (resume_bg_task w) = Ok tt /\
  exists t tr, exec resume_bg_task w = with_trace tr (with_bg_task t w).
Proof.
  assert (Hrun : forall counter, fst (run_broadcaster counter w) = Ok tt).
  { intros counter. rewrite run_broadcaster_eq, broadcaster_body_eq.
    destruct (shutdown_requested w); [done |].
    by destruct (0 <? size (active_clients w))%nat. }
  split.
  - unfold resume_bg_task. rewrite bind_gets.
    destruct (bg_task w) as [[|counter deadline] [|]| |]; try done.
    + apply Hrun.
    + unfold time_monotonic. rewrite bind_gets.
      destruct (deadline <=? monotonic w); [apply Hrun | done].
  - rewrite exec_resume_bg_task.
    destruct (bg_task w) as [[|counter deadline] [|]| |] eqn:Ht;
      rewrite ?exec_run_broadcaster;
      repeat match goal with
             | |- context [if ?b then _ else _] => destruct b
             end;
      try (by eexists _, _);
      exists (bg_task w), (trace w); by destruct w.
Qed.

(** ** Invariants of the whole shutdown sequence *)

(** A property that every action keeps, that the passing of time keeps, and
    that does not read what the coordinator writes (its own observations,
    the script, a request to cancel) is kept by every step the coordinator
    makes after it has given the signal. *)
Section coordinator.
Variable J : world -> Prop.
Hypothesis J_action : forall a, preserves J (run_action a).
Hypothesis J_log : forall o, coordinator_obs o -> preserves J (exec (log o)).
Hypothesis J_tick : forall dt, 0 <= dt -> preserves J (tick dt).
Hypothesis J_script : forall s, preserves J (with_script s).
Hypothesis J_cancel : forall w c b,
  bg_task w = Pending c b -> J w -> J (with_bg_task (Pending c true) w).

Lemma run_actions_keeps acts : preserves J (run_actions acts).
Proof. apply preserves_run_actions. intros a _. apply J_action. Qed.

Lemma suspend_keeps : preserves J (exec suspend).
Proof. intros w Hw. apply run_actions_keeps. by apply J_script. Qed.

Lemma asyncio_sleep_keeps d : preserves J (exec (asyncio_sleep d)).
Proof.
  unfold asyncio_sleep. preserve; [apply suspend_keeps |].
  intros w Hw. apply J_tick; [lia | done].
Qed.

Lemma sio_disconnect_keeps sid ignore_queue :
  preserves J (exec (sio_disconnect sid ignore_queue)).
Proof.
  unfold sio_disconnect. preserve; [by apply J_log |].
  intros w. apply run_actions_keeps.
Qed.

Lemma task_cancel_keeps : preserves J (exec task_cancel).
Proof.
  intros w Hw. apply (J_log TaskCancel) in Hw; [| done].
  rewrite exec_task_cancel.
  destruct (bg_task w) as [c b| |] eqn:Ht; [| done..].
  by apply (J_cancel _ c b).
Qed.

Lemma await_keeps : preserves J (exec await_bg_task).
Proof.
  unfold await_bg_task. preserve; [apply (J_action ResumeBroadcaster) |].
  case_match; preserve.
Qed.

Lemma drain_keeps fuel remaining : preserves J (exec (drain fuel remaining)).
Proof.
  revert remaining. induction fuel as [|fuel IH]; intros remaining; simpl.
  - apply preserves_starve.
  - preserve; [by apply J_log |].
    case_match; preserve; [apply asyncio_sleep_keeps |].
    case_match; [apply IH | preserve].
Qed.

Lemma force_close_keeps : preserves J (exec force_close).
Proof.
  unfold force_close. preserve. case_match; preserve.
  apply preserves_for_each. intros sid. apply sio_disconnect_keeps.
Qed.

Lemma stop_broadcaster_keeps : preserves J (exec stop_broadcaster).
Proof.
  unfold stop_broadcaster. preserve; [apply task_cancel_keeps | apply await_keeps].
Qed.

Lemma shutdown_keeps fuel :
  preserves J (with_shutdown_requested true) ->
  (forall t, preserves J (with_shutdown_start_time t)) ->
  preserves J (exec (lifespan_shutdown fuel)).
Proof.
  intros Hflag Hstart. unfold lifespan_shutdown, signal_shutdown. preserve.
  - done.
  - by apply J_log.
  - apply Hstart.
  - by apply J_log.
  - apply drain_keeps.
  - apply force_close_keeps.
  - apply stop_broadcaster_keeps.
Qed.

Lemma lifespan_keeps fuel :
  preserves J (with_shutdown_requested true) ->
  (forall t, preserves J (with_shutdown_start_time t)) ->
  preserves J (with_bg_task (Pending Fresh false)) ->
  preserves J (exec (lifespan fuel)).
Proof.
  intros Hflag Hstart Hfresh. unfold lifespan, lifespan_startup. preserve.
  - done.
  - by apply J_log.
  - apply suspend_keeps.
  - by apply shutdown_keeps.
Qed.
End coordinator.

(** ** Timestamps *)

Lemma run_action_clock a w : monotonic w <= monotonic (run_action a w).
Proof.
  destruct a as [sid environ|sid|sid data|dt|]; simpl; try lia.
  - rewrite exec_disconnect. simpl. lia.
  - change (exec resume_bg_task w) with (run_action ResumeBroadcaster w).
    rewrite run_action_timeless; [lia | done].
Qed.

Lemma run_action_timestamps a : preserves timestamps_past (run_action a).
Proof.
  intros w Hw sid t. pose proof (run_action_clock a w) as Hclock.
  rewrite run_action_registry.
  destruct a as [sid' environ|sid'|sid' data|dt|]; intros Hsid.
  - destruct (decide (sid' = sid)) as [->|Hne].
    + rewrite lookup_insert_eq in Hsid. injection Hsid as <-. exact Hclock.
    + rewrite lookup_insert_ne in Hsid by done. specialize (Hw _ _ Hsid). lia.
  - apply lookup_delete_Some in Hsid as [_ Hsid]. specialize (Hw _ _ Hsid). lia.
  - specialize (Hw _ _ Hsid). lia.
  - specialize (Hw _ _ Hsid). lia.
  - specialize (Hw _ _ Hsid). lia.
Qed.

(** No entry of the registry is stamped in the future: if every timestamp
    is at most the reading of the monotonic clock, this is still so after
    any sequence of events and after a whole run of [lifespan], whatever
    the script. *)
Theorem timestamps_stay_in_the_past (fuel : nat) (acts : list action) (w : world) :
  timestamps_past w ->
  timestamps_past (run_actions acts w) /\
  timestamps_past (exec (lifespan fuel) w).
Proof.
  intros Hw. split.
  - revert w Hw. apply preserves_run_actions. intros a _. apply run_action_timestamps.
  - revert w Hw. apply lifespan_keeps.
    + apply run_action_timestamps.
    + by intros o _ w Hw.
    + intros dt Hdt w Hw sid t Hsid. specialize (Hw _ _ Hsid). simpl. lia.
    + by intros s w Hw.
    + by intros w c b _ Hw.
    + by intros w Hw.
    + by intros t w Hw.
    + by intros w Hw.
Qed.

Lemma timestamps_stay_in_the_past_witness :
  timestamps_past (run_actions morning serving) /\
  timestamps_past (exec (lifespan 361) serving).
Proof.
  apply (timestamps_stay_in_the_past 361 morning serving).
  apply (timestamps_stay_in_the_past 0 [OnConnect "c1" VNone; ResumeBroadcaster] idle).
  intros sid t Hsid. simpl in Hsid. by rewrite lookup_empty in Hsid.
Defined.

(** ** What the server emits *)

Lemma extended_snoc tr0 (Q : obs -> Prop) o w w' :
  Q o -> trace w' = trace w ++ [o] -> extended tr0 Q w -> extended tr0 Q w'.
Proof.
  intros Ho Htrace (new & Hnew & Hall). exists (new ++ [o]). split.
  - by rewrite Htrace, Hnew, (assoc_L (++)).
  - apply Forall_app. split; [done |]. by apply Forall_singleton.
Qed.

Lemma run_action_known a : appends known_broadcast (run_action a).
Proof.
  intros tr0 w Hw. destruct a as [sid environ|sid|sid data|dt|]; simpl.
  - eapply extended_snoc; [| | exact Hw]; [| done]. simpl. auto.
  - rewrite exec_disconnect. by apply (extended_frame tr0 _ w).
  - eapply extended_snoc; [| | exact Hw]; [| done]. simpl. auto.
  - by apply (extended_frame tr0 _ w).
  - rewrite exec_resume_bg_task.
    destruct (bg_task w) as [[|counter deadline] [|]| |]; try done;
      rewrite ?exec_run_broadcaster;
      repeat match goal with
             | |- context [if ?b then _ else _] => destruct b
             end;
      first [ done
            | by apply (extended_frame tr0 _ w)
            | (eapply extended_snoc; [| | exact Hw]; [| done]); simpl; auto ].
Qed.

(** The server emits nothing but the three events "welcome", "message" and
    "notification", and none of them to a single client: every emit that a
    sequence of events or a whole run of [lifespan] adds to the trace is one
    of these, without a target. *)
Theorem only_known_events_are_broadcast (fuel : nat) (acts : list action) (w : world) :
  (exists new,
     trace (run_actions acts w) = trace w ++ new /\ Forall known_broadcast new) /\
  (exists new,
     trace (exec (lifespan fuel) w) = trace w ++ new /\ Forall known_broadcast new).
Proof.
  split.
  - apply appends_elim. intros tr0. apply preserves_run_actions.
    intros a _. apply run_action_known.
  - apply appends_elim. intros tr0. apply lifespan_keeps.
    + intros a. apply run_action_known.
    + intros o Ho. apply log_appends. by destruct o.
    + intros dt _ w'. by apply extended_frame.
    + intros s w'. by apply extended_frame.
    + intros w' c b _. by apply extended_frame.
    + intros w'. by apply extended_frame.
    + intros t w'. by apply extended_frame.
    + intros w'. by apply extended_frame.
Qed.

(** ** The pace of the notifications *)

Lemma run_broadcaster_paced since ids0 (k : nat) w :
  notification_ids (trace w) = ids0 ++ seqZ 1 (Z.of_nat k) ->
  seconds 10 * Z.of_nat k <= monotonic w - since ->
  paced since ids0 (exec (run_broadcaster (Z.of_nat k)) w).
Proof.
  intros Hids Hdue. rewrite exec_run_broadcaster. unfold seconds in Hdue.
  destruct (shutdown_requested w).
  - exists k. simpl. rewrite notification_ids_snoc, app_nil_r.
    unfold seconds. split_and!; [done | lia | lia | done].
  - destruct (0 <? size (active_clients w))%nat.
    + exists (S k). simpl. rewrite notification_ids_snoc. simpl.
      rewrite Hids, <- (assoc_L (++)), seqZ_S. unfold seconds.
      split_and!; [by rewrite (Z.add_comm 1) | lia | lia | lia | lia].
    + exists k. simpl. unfold seconds. split_and!; [done | lia | lia | done | lia].
Qed.

Lemma run_action_paced since ids0 a : preserves (paced since ids0) (run_action a).
Proof.
  intros w (k & Hids & Hsince & Hpace & Htask).
  destruct a as [sid environ|sid|sid data|dt|]; simpl.
  - exists k. simpl. by rewrite notification_ids_snoc, app_nil_r.
  - rewrite exec_disconnect. by exists k.
  - exists k. simpl. by rewrite notification_ids_snoc, app_nil_r.
  - exists k. simpl. split_and!; [done | lia | lia | done].
  - rewrite exec_resume_bg_task.
    destruct (bg_task w) as [[|counter deadline] [|]| |] eqn:Ht.
    + exists k. simpl. by rewrite notification_ids_snoc, app_nil_r.
    + subst k. apply (run_broadcaster_paced since ids0 0); [done |].
      unfold seconds. lia.
    + exists k. simpl. by rewrite notification_ids_snoc, app_nil_r.
    + destruct Htask as [-> Hdeadline].
      destruct (deadline <=? monotonic w) eqn:Hdue.
      * apply Z.leb_le in Hdue. apply run_broadcaster_paced; [done | lia].
      * exists k. by rewrite Ht.
    + exists k. by rewrite Ht.
    + exists k. by rewrite Ht.
Qed.

Lemma paced_start w : paced (monotonic w) (notification_ids (trace w))
                        (exec lifespan_startup w).
Proof.
  exists 0%nat. simpl. rewrite notification_ids_snoc. simpl.
  unfold seconds. split_and!; [by rewrite !app_nil_r | lia | lia | done].
Qed.

Lemma shutdown_paced since ids0 fuel :
  preserves (paced since ids0) (exec (suspend ;; lifespan_shutdown fuel)).
Proof.
  assert (Hframe : forall w w',
            notification_ids (trace w') = notification_ids (trace w) ->
            monotonic w <= monotonic w' ->
            (bg_task w' = bg_task w \/
             exists c b, bg_task w = Pending c b /\ bg_task w' = Pending c true) ->
            paced since ids0 w -> paced since ids0 w').
  { intros w w' Hids Hclock Hsame (k & Hk & Hsince & Hpace & Htask).
    exists k. rewrite Hids. split_and!; [done | lia | lia |].
    destruct Hsame as [-> | (c & b & Hw & ->)]; [done |].
    rewrite Hw in Htask. by destruct c. }
  assert (Hlog : forall o, coordinator_obs o ->
            preserves (paced since ids0) (exec (log o))).
  { intros o Ho w. apply Hframe; simpl; [| lia | by left].
    rewrite notification_ids_snoc. destruct o; try done; by rewrite app_nil_r. }
  preserve.
  - apply suspend_keeps; [apply run_action_paced |].
    intros s w. apply Hframe; simpl; [done | lia | by left].
  - apply shutdown_keeps.
    + apply run_action_paced.
    + exact Hlog.
    + intros dt Hdt w. apply Hframe; simpl; [done | lia | by left].
    + intros s w. apply Hframe; simpl; [done | lia | by left].
    + intros w c b Ht. apply Hframe; simpl; [done | lia |]. right. by exists c, b.
    + intros w. apply Hframe; simpl; [done | lia | by left].
    + intros t w. apply Hframe; simpl; [done | lia | by left].
Qed.

(** The broadcaster emits at most one notification every ten seconds: a run
    of events that starts with a fresh task, and a whole run of [lifespan],
    emit the notifications 1, ..., k only if at least [10 * (k - 1)] seconds
    of the monotonic clock go by. *)
Theorem notifications_are_paced (fuel : nat) (acts : list action) (w : world) :
  (bg_task w = Pending Fresh false ->
   exists k : nat,
     notification_ids (trace (run_actions acts w)) =
       notification_ids (trace w) ++ seqZ 1 (Z.of_nat k) /\
     seconds 10 * (Z.of_nat k - 1) <= monotonic (run_actions acts w) - monotonic w) /\
  (exists k : nat,
     notification_ids (trace (exec (lifespan fuel) w)) =
       notification_ids (trace w) ++ seqZ 1 (Z.of_nat k) /\
     seconds 10 * (Z.of_nat k - 1) <= monotonic (exec (lifespan fuel) w) - monotonic w).
Proof.
  split.
  - intros Hfresh.
    destruct (preserves_run_actions
                (paced (monotonic w) (notification_ids (trace w))) acts
                (fun a _ => run_action_paced _ _ a) w) as (k & Hids & _ & Hpace & _).
    { exists 0%nat. rewrite Hfresh. simpl. unfold seconds.
      split_and!; [by rewrite app_nil_r | lia | lia | done]. }
    by exists k.
  - destruct (shutdown_paced (monotonic w) (notification_ids (trace w)) fuel
                (exec lifespan_startup w) (paced_start w)) as (k & Hids & _ & Hpace & _).
    exists k. split; [exact Hids | exact Hpace].
Qed.

Lemma notifications_are_paced_witness :
  exists k : nat,
    notification_ids (trace (run_actions morning idle)) =
      notification_ids (trace idle) ++ seqZ 1 (Z.of_nat k) /\
    seconds 10 * (Z.of_nat k - 1) <= monotonic (run_actions morning idle) - monotonic idle.
Proof. apply (notifications_are_paced 0 morning idle). reflexivity. Defined.

(** ** The drain loop, whatever the clients do *)

Lemma drain_exit fuel : forall (f : nat) w start,
  shutdown_start_time w = Some start ->
  remaining_at start w <= seconds 5 * Z.of_nat f ->
  (f < fuel)%nat ->
  exists w' new,
    drain fuel (remaining_at start w) w = (Ok tt, w') /\
    trace w' = trace w ++ new /\
    forced new = [] /\
    shutdown_start_time w' = Some start /\
    on_close w' = on_close w /\
    monotonic w <= monotonic w' /\
    (size (active_clients w') = 0%nat \/ MAX_GRACE_PERIOD <= monotonic w' - start).
Proof.
  induction fuel as [|fuel IH]; intros f w start Hstart Hbound Hf; [lia |].
  rewrite drain_step. cbv zeta.
  set (w1 := exec (log (Poll (size (active_clients w)) (remaining_at start w))) w).
  destruct ((0 <? size (active_clients w))%nat && (0 <? remaining_at start w)) eqn:Hcond.
  - apply andb_true_iff in Hcond as [_ Hpos%Z.ltb_lt].
    set (w2 := exec (asyncio_sleep (seconds 5)) w1).
    assert (Hstart2 : shutdown_start_time w2 = Some start)
      by (unfold w2; by rewrite sleep_start).
    rewrite Hstart2.
    pose proof (sleep_at_least (seconds 5) w1) as Hslept. fold w2 in Hslept.
    change (monotonic w1) with (monotonic w) in Hslept.
    destruct (sleep_trace (seconds 5) w1) as (slept & Htrace2 & Hambient).
    fold w2 in Htrace2.
    destruct f as [|f]; [unfold seconds in *; lia |].
    destruct (IH f w2 start) as (w' & new & Hrun & Htrace & Hforced
                                  & Hstart' & Hclose & Hclock & Hexit).
    + done.
    + unfold remaining_at, seconds in *. lia.
    + lia.
    + exists w', (Poll (size (active_clients w)) (remaining_at start w) :: slept ++ new).
      split_and!.
      * exact Hrun.
      * rewrite Htrace, Htrace2. simpl. by rewrite <- !(assoc_L (++)).
      * change (Poll ?a ?r :: ?l) with ([Poll a r] ++ l).
        by rewrite !forced_app, (forced_ambient slept Hambient), Hforced.
      * done.
      * rewrite Hclose. unfold w2. by rewrite sleep_on_close.
      * unfold seconds in *. lia.
      * done.
  - exists w1, [Poll (size (active_clients w)) (remaining_at start w)].
    split_and!; try done.
    change (active_clients w1) with (active_clients w).
    change (monotonic w1) with (monotonic w).
    apply andb_false_iff in Hcond as [Hsize%Nat.ltb_ge | Hr%Z.ltb_ge].
    + left. lia.
    + right. unfold remaining_at in Hr. lia.
Qed.

Lemma exec_force_close_empty w :
  size (active_clients w) = 0%nat -> exec force_close w = w.
Proof.
  intros Hsize. unfold exec, force_close, len_active_clients.
  by rewrite !bind_gets, Hsize.
Qed.

Lemma signalled_drain_exit fuel w :
  (361 <= fuel)%nat ->
  exists expiry drained,
    drain fuel MAX_GRACE_PERIOD (exec signal_shutdown w) = (Ok tt, expiry) /\
    trace expiry = trace w ++ [FlagSet; StartRecorded (monotonic w)] ++ drained /\
    forced drained = [] /\
    shutdown_start_time expiry = Some (monotonic w) /\
    on_close expiry = on_close w /\
    monotonic w <= monotonic expiry /\
    (size (active_clients expiry) = 0%nat \/
     MAX_GRACE_PERIOD <= monotonic expiry - monotonic w).
Proof.
  intros Hfuel.
  set (w1 := exec signal_shutdown w).
  assert (Hw1 : w1 = with_trace (trace w ++ [FlagSet; StartRecorded (monotonic w)])
                       (with_shutdown_start_time (Some (monotonic w))
                          (with_shutdown_requested true w))).
  { unfold w1, exec. by rewrite signal_shutdown_eq. }
  destruct (drain_exit fuel 360 w1 (monotonic w))
    as (expiry & drained & Hrun & Htrace & Hforced & Hstart & Hclose
        & Hclock & Hexit).
  { by rewrite Hw1. }
  { unfold w1. rewrite signalled_remaining. unfold MAX_GRACE_PERIOD, seconds. lia. }
  { lia. }
  unfold w1 in Hrun at 1. rewrite signalled_remaining in Hrun. fold w1 in Hrun.
  exists expiry, drained. split_and!; try done.
  rewrite Htrace, Hw1. simpl. by rewrite <- (assoc_L (++)).
Qed.

Lemma keys_listed_idle : keys_listed idle.
Proof. split; [apply NoDup_nil_2 | apply dom_empty_L]. Qed.

(** The list of the keys stays the list of the keys through a whole run of
    [lifespan], and while the coordinator drains, whatever the clients
    do. *)
Lemma lifespan_keys_listed fuel : preserves keys_listed (exec (lifespan fuel)).
Proof.
  apply lifespan_keeps.
  - apply run_action_keys_listed.
  - by intros o _ w Hw.
  - by intros dt _ w Hw.
  - by intros s w Hw.
  - by intros w c b _ Hw.
  - by intros w Hw.
  - by intros t w Hw.
  - by intros w Hw.
Qed.

Lemma drain_keys_listed fuel remaining :
  preserves keys_listed (exec (drain fuel remaining)).
Proof.
  apply drain_keeps.
  - apply run_action_keys_listed.
  - by intros o _ w Hw.
  - by intros dt _ w Hw.
  - by intros s w Hw.
Qed.

(** No client is disconnected by force before the grace period is over,
    whatever the clients do during the drain: with fuel for the tests of
    the loop the shutdown completes and the loop disconnects nobody; after
    it [sio.disconnect] is called once for every sid registered when the
    loop ended, in the order of the dict, and for no other; it is called at
    all only if the grace period had elapsed by then, and never after
    [bg_task.cancel()]. *)
Theorem forced_only_after_expiry (fuel : nat) (w : world) :
  keys_listed w ->
  (361 <= fuel)%nat ->
  exists expiry w' drained closing after,
    drain fuel MAX_GRACE_PERIOD (exec signal_shutdown w) = (Ok tt, expiry) /\
    lifespan_shutdown fuel w = (Ok tt, w') /\
    trace expiry = trace w ++ [FlagSet; StartRecorded (monotonic w)] ++ drained /\
    trace w' = trace expiry ++ closing ++ TaskCancel :: after /\
    forced drained = [] /\
    forced after = [] /\
    forced closing = arrival expiry /\
    NoDup (forced closing) /\
    (forall sid, sid ∈ forced closing <-> is_Some (active_clients expiry !! sid)) /\
    (forced closing <> [] -> MAX_GRACE_PERIOD <= monotonic expiry - monotonic w).
Proof.
  intros Hkeys Hfuel.
  destruct (signalled_drain_exit fuel w Hfuel)
    as (expiry & drained & Hrun & Htrace & Hforced & _ & _ & _ & Hexit).
  assert (Hlisted : keys_listed expiry).
  { change expiry with (snd (Ok (A:=unit) tt, expiry)). rewrite <- Hrun.
    apply drain_keys_listed. unfold exec. by rewrite signal_shutdown_eq. }
  assert (Hclosing : exists closing,
            trace (exec force_close expiry) = trace expiry ++ closing /\
            forced closing = arrival expiry).
  { destruct (size (active_clients expiry)) as [|n] eqn:Hsize.
    - exists []. rewrite exec_force_close_empty by done.
      rewrite <- (keys_listed_length expiry Hlisted) in Hsize.
      apply nil_length_inv in Hsize. by rewrite Hsize, app_nil_r.
    - destruct (close_all_trace (arrival expiry) expiry)
        as (closing & Hclosing & Hsids & _).
      exists closing. rewrite exec_force_close by lia. by split. }
  destruct Hclosing as (closing & Hclosing & Hsids).
  set (w3 := exec force_close expiry) in *.
  exists expiry, (exec stop_broadcaster w3), drained, closing,
    (match bg_task w3 with
     | Pending _ _ => [BroadcasterStopped true]
     | _ => []
     end).
  split_and!.
  - exact Hrun.
  - rewrite lifespan_shutdown_eq. by rewrite Hrun.
  - exact Htrace.
  - unfold exec. rewrite stop_broadcaster_eq.
    rewrite (assoc_L (++) (trace expiry)), <- Hclosing.
    by destruct (bg_task w3).
  - exact Hforced.
  - by destruct (bg_task w3).
  - exact Hsids.
  - rewrite Hsids. apply Hlisted.
  - intros sid. rewrite Hsids. by apply keys_listed_elem.
  - intros Hsome. destruct Hexit as [Hempty | Hover]; [| done].
    rewrite <- (keys_listed_length expiry Hlisted) in Hempty.
    apply nil_length_inv in Hempty. by rewrite Hsids in Hsome.
Qed.

Lemma forced_only_after_expiry_witness :
  exists expiry w' drained closing after,
    drain 361 MAX_GRACE_PERIOD (exec signal_shutdown crowded) = (Ok tt, expiry) /\
    lifespan_shutdown 361 crowded = (Ok tt, w') /\
    trace expiry =
      trace crowded ++ [FlagSet; StartRecorded (monotonic crowded)] ++ drained /\
    trace w' = trace expiry ++ closing ++ TaskCancel :: after /\
    forced drained = [] /\
    forced after = [] /\
    forced closing = arrival expiry /\
    NoDup (forced closing) /\
    (forall sid, sid ∈ forced closing <-> is_Some (active_clients expiry !! sid)) /\
    (forced closing <> [] -> MAX_GRACE_PERIOD <= monotonic expiry - monotonic crowded).
Proof.
  apply (forced_only_after_expiry 361 crowded);
    [apply (bool_decide_unpack _); vm_compute; exact I | lia].
Defined.

(** A shutdown that finds the registry empty gets to [bg_task.cancel()] at
    once: the loop tests once and does not sleep, so the clock and the
    script are untouched, and [sio.disconnect] is never called; what is left
    of the [finally] block is the cancellation of the task. *)
Theorem shutdown_of_empty_registry (fuel : nat) (w : world) :
  active_clients w = ∅ ->
  exists w1,
    w1 = with_trace
           (trace w ++ [FlagSet; StartRecorded (monotonic w); Poll 0 MAX_GRACE_PERIOD])
           (with_shutdown_start_time (Some (monotonic w))
              (with_shutdown_requested true w)) /\
    (signal_shutdown ;; drain (S fuel) MAX_GRACE_PERIOD ;; force_close) w = (Ok tt, w1) /\
    lifespan_shutdown (S fuel) w = stop_broadcaster w1.
Proof.
  intros Hempty.
  assert (Hsize : size (active_clients (exec signal_shutdown w)) = 0%nat).
  { unfold exec. rewrite signal_shutdown_eq. simpl. by rewrite Hempty, map_size_empty. }
  assert (Hdrain : drain (S fuel) MAX_GRACE_PERIOD (exec signal_shutdown w) =
            (Ok tt,
             with_trace
               (trace w ++ [FlagSet; StartRecorded (monotonic w); Poll 0 MAX_GRACE_PERIOD])
               (with_shutdown_start_time (Some (monotonic w))
                  (with_shutdown_requested true w)))).
  { rewrite drain_step. cbv zeta. rewrite Hsize. simpl andb. cbv iota.
    unfold exec. rewrite signal_shutdown_eq. simpl. unfold with_trace. simpl.
    by rewrite <- (assoc_L (++)). }
  eexists. split; [reflexivity |].
  assert (Hclose : force_close
            (with_trace
               (trace w ++ [FlagSet; StartRecorded (monotonic w); Poll 0 MAX_GRACE_PERIOD])
               (with_shutdown_start_time (Some (monotonic w))
                  (with_shutdown_requested true w))) =
            (Ok tt,
             with_trace
               (trace w ++ [FlagSet; StartRecorded (monotonic w); Poll 0 MAX_GRACE_PERIOD])
               (with_shutdown_start_time (Some (monotonic w))
                  (with_shutdown_requested true w)))).
  { unfold force_close, len_active_clients. rewrite bind_gets. simpl.
    by rewrite Hempty, map_size_empty. }
  split.
  - rewrite (bind_exec signal_shutdown _ w tt); [| by rewrite signal_shutdown_eq].
    rewrite (bind_exec (drain _ _) _ _ tt); [| by rewrite Hdrain].
    unfold exec at 1. rewrite Hdrain. exact Hclose.
  - rewrite lifespan_shutdown_eq, Hdrain.
    unfold exec at 2. rewrite Hclose. cbn [snd]. symmetry. apply stop_broadcaster_ok.
Qed.

Lemma shutdown_of_empty_registry_witness :
  exists w1,
    w1 = with_trace
           (trace idle ++
            [FlagSet; StartRecorded (monotonic idle); Poll 0 MAX_GRACE_PERIOD])
           (with_shutdown_start_time (Some (monotonic idle))
              (with_shutdown_requested true idle)) /\
    (signal_shutdown ;; drain 1 MAX_GRACE_PERIOD ;; force_close) idle = (Ok tt, w1) /\
    lifespan_shutdown 1 idle = stop_broadcaster w1.
Proof. apply (shutdown_of_empty_registry 0 idle). reflexivity. Defined.

(** ** Cancelling the task *)



(** ** The whole of [lifespan] *)

Lemma after_signal_keeps (J : world -> Prop) fuel :
  (forall a, preserves J (run_action a)) ->
  (forall o, coordinator_obs o -> preserves J (exec (log o))) ->
  (forall dt, 0 <= dt -> preserves J (tick dt)) ->
  (forall s, preserves J (with_script s)) ->
  (forall w c b, bg_task w = Pending c b -> J w -> J (with_bg_task (Pending c true) w)) ->
  forall w,
    J (exec signal_shutdown w) -> J (exec (lifespan_shutdown fuel) w).
Proof.
  intros Haction Hlog Htick Hscript Hcancel w Hw.
  unfold lifespan_shutdown. rewrite exec_bind.
  replace (fst (signal_shutdown w)) with (Ok (A:=unit) tt)
    by (by rewrite signal_shutdown_eq).
  revert Hw. generalize (exec signal_shutdown w). cbv zeta.
  change (preserves J (exec (drain fuel MAX_GRACE_PERIOD ;; force_close ;; stop_broadcaster))).
  preserve.
  - by apply drain_keeps.
  - by apply force_close_keeps.
  - by apply stop_broadcaster_keeps.
Qed.

(** With fuel for the 361 tests of the loop, [lifespan] returns normally in
    every world and for every script: the start time is set before the loop
    reads it, and the [CancelledError] of the awaited task is suppressed.
    It leaves the flag set, the start time at the reading of the clock when
    the shutdown began, which is not after the end, and the task returned
    or cancelled. *)
Theorem lifespan_completes (fuel : nat) (w : world) :
  (361 <= fuel)%nat ->
  exists w',
    lifespan fuel w = (Ok tt, w') /\
    shutdown_requested w' = true /\
    shutdown_start_time w' = Some (monotonic (exec (lifespan_startup ;; suspend) w)) /\
    monotonic (exec (lifespan_startup ;; suspend) w) <= monotonic w' /\
    (bg_task w' = Returned \/ bg_task w' = Cancelled).
Proof.
  intros Hfuel.
  set (ws := exec (lifespan_startup ;; suspend) w).
  assert (Hrun : lifespan fuel w = lifespan_shutdown fuel ws) by reflexivity.
  destruct (signalled_drain_exit fuel ws Hfuel) as (expiry & drained & Hdrain & _).
  exists (exec (lifespan_shutdown fuel) ws). split_and!.
  - rewrite Hrun. unfold exec. rewrite lifespan_shutdown_eq, Hdrain. done.
  - apply (after_signal_keeps (fun w => shutdown_requested w = true)).
    + intros a w' Hw'. by rewrite run_action_flag.
    + by intros o _ w' Hw'.
    + by intros dt _ w' Hw'.
    + by intros s w' Hw'.
    + by intros w' c b _ Hw'.
    + unfold exec. by rewrite signal_shutdown_eq.
  - apply (after_signal_keeps
             (fun w => shutdown_start_time w = Some (monotonic ws))).
    + intros a w' Hw'. by rewrite run_action_start.
    + by intros o _ w' Hw'.
    + by intros dt _ w' Hw'.
    + by intros s w' Hw'.
    + by intros w' c b _ Hw'.
    + unfold exec. by rewrite signal_shutdown_eq.
  - apply (after_signal_keeps (fun w => monotonic ws <= monotonic w)).
    + intros a w' Hw'. pose proof (run_action_clock a w'). lia.
    + by intros o _ w' Hw'.
    + intros dt Hdt w' Hw'. simpl. lia.
    + by intros s w' Hw'.
    + by intros w' c b _ Hw'.
    + unfold exec. rewrite signal_shutdown_eq. simpl. lia.
  - assert (Hend : exec (lifespan_shutdown fuel) ws =
                   exec stop_broadcaster (exec force_close expiry)).
    { unfold exec at 1. by rewrite lifespan_shutdown_eq, Hdrain. }
    rewrite Hend. generalize (exec force_close expiry). intros w3.
    unfold exec. rewrite stop_broadcaster_eq. cbn [snd].
    destruct (bg_task w3) eqn:Ht; simpl; rewrite ?Ht; auto.
Qed.

Lemma lifespan_completes_witness :
  exists w',
    lifespan 361 crowded = (Ok tt, w') /\
    shutdown_requested w' = true /\
    shutdown_start_time w' =
      Some (monotonic (exec (lifespan_startup ;; suspend) crowded)) /\
    monotonic (exec (lifespan_startup ;; suspend) crowded) <= monotonic w' /\
    (bg_task w' = Returned \/ bg_task w' = Cancelled).
Proof. apply (lifespan_completes 361 crowded). lia. Defined.

(** ** The registry after the forced disconnections *)

(** Actions that are not connects never add a key, and the sid of a
    disconnect among them is not a key afterwards. *)
Lemma run_actions_departs acts : forall w sid,
  forallb (fun a => negb (arrives a)) acts = true ->
  dom (active_clients (run_actions acts w)) ⊆ dom (active_clients w) /\
  (OnDisconnect sid ∈ acts -> sid ∉ dom (active_clients (run_actions acts w))).
Proof.
  induction acts as [|a acts IH]; intros w sid Hacts.
  - split; [done |]. by intros ?%elem_of_nil.
  - simpl in Hacts. apply andb_true_iff in Hacts as [Ha Hacts].
    rewrite run_actions_cons.
    destruct (IH (run_action a w) sid Hacts) as [Hsub Hgone].
    assert (Hstep : dom (active_clients (run_action a w)) ⊆ dom (active_clients w)).
    { rewrite run_action_registry. destruct a; try done.
      rewrite dom_delete. apply subseteq_difference_l. done. }
    split; [by etrans |].
    intros [<-|Hin]%elem_of_cons; [| by apply Hgone].
    intros Hsid. apply Hsub in Hsid. rewrite run_action_registry, dom_delete in Hsid.
    apply elem_of_difference in Hsid as [_ Hsid]. by apply Hsid, elem_of_singleton.
Qed.

Lemma sio_disconnect_reported sid w :
  reports_close w -> closes_without_arrival w ->
  dom (active_clients (exec (sio_disconnect sid true) w)) ⊆
    dom (active_clients w) ∖ {[sid]} /\
  on_close (exec (sio_disconnect sid true) w) = on_close w.
Proof.
  intros Hreports Hclosed.
  change (exec (sio_disconnect sid true) w)
    with (run_actions (on_close w sid) (exec (log (ForceDisconnect sid true)) w)).
  rewrite run_actions_on_close. split; [| done].
  destruct (run_actions_departs (on_close w sid)
              (exec (log (ForceDisconnect sid true)) w) sid (Hclosed sid))
    as [Hsub Hgone].
  specialize (Hgone (Hreports sid)).
  intros x Hx. apply elem_of_difference. split; [by apply Hsub |].
  intros ->%elem_of_singleton. done.
Qed.

(** With a transport that reports back, the loop over the snapshot
    [list(active_clients)] removes the sids of the list, although the
    registry shrinks while the loop runs. *)
Lemma close_all_registry (sids : list string) : forall w,
  reports_close w -> closes_without_arrival w ->
  dom (active_clients (exec (for_each sids (fun sid => sio_disconnect sid true)) w)) ⊆
    dom (active_clients w) ∖ list_to_set sids.
Proof.
  induction sids as [|sid sids IH]; intros w Hreports Hclosed.
  - simpl. by rewrite difference_empty_L.
  - cbn [for_each]. rewrite exec_bind.
    change (fst (sio_disconnect sid true w)) with (Ok (A:=unit) tt). cbv iota.
    destruct (sio_disconnect_reported sid w Hreports Hclosed) as [Hreg Hsame].
    intros x Hx. apply IH in Hx.
    + apply elem_of_difference in Hx as [Hx Hout]. apply Hreg in Hx.
      apply elem_of_difference in Hx as [Hx Hne].
      apply elem_of_difference. split; [done |].
      rewrite list_to_set_cons. intros [?|?]%elem_of_union; done.
    + intros sid'. rewrite Hsame. apply Hreports.
    + intros sid'. rewrite Hsame. apply Hclosed.
Qed.

(** When the transport reports every forced close to the [disconnect]
    handler and no client connects while the closes are under way, the
    [if len(active_clients) > 0] block leaves the registry empty: it
    returns normally, and no key is left, whether the block had anything to
    close or not. *)
Theorem registry_empty_after_force_close (w : world) :
  keys_listed w ->
  reports_close w ->
  closes_without_arrival w ->
  fst (force_close w) = Ok tt /\
  active_clients (exec force_close w) = ∅.
Proof.
  intros Hkeys Hreports Hclosed. split; [apply force_close_ok |].
  destruct (size (active_clients w)) as [|n] eqn:Hsize.
  - rewrite exec_force_close_empty by done. by apply map_size_empty_inv.
  - rewrite exec_force_close by lia. apply dom_empty_inv_L.
    apply elem_of_equiv_empty_L. intros x Hx.
    apply close_all_registry in Hx; [| done..].
    apply elem_of_difference in Hx as [Hx Hout].
    apply Hout. destruct Hkeys as [_ Hdom]. by rewrite <- Hdom.
Qed.

Lemma registry_empty_after_force_close_witness :
  fst (force_close crowded) = Ok tt /\
  active_clients (exec force_close crowded) = ∅.
Proof.
  apply (registry_empty_after_force_close crowded).
  - apply (bool_decide_unpack _). vm_compute. exact I.
  - intros sid. apply list_elem_of_here.
  - intros sid. reflexivity.
Defined.

(** ** The broadcaster does not stop on its own *)

(** As long as no shutdown is requested and nobody cancels the task, the
    broadcaster keeps running: after any sequence of events, ticks and
    turns the task is still pending, not returned and not cancelled. *)
Theorem broadcaster_runs_until_shutdown (acts : list action) (w : world) :
  shutdown_requested w = false ->
  (exists c, bg_task w = Pending c false) ->
  shutdown_requested (run_actions acts w) = false /\
  exists c, bg_task (run_actions acts w) = Pending c false.
Proof.
  revert w. induction acts as [|a acts IH]; intros w Hflag Hpending; [done |].
  rewrite run_actions_cons. apply IH; [by rewrite run_action_flag |].
  destruct Hpending as [c Hc].
  destruct a as [sid environ|sid|sid data|dt|]; simpl; try by exists c.
  - rewrite exec_disconnect. by exists c.
  - rewrite exec_resume_bg_task, Hc.
    destruct c as [|counter deadline]; rewrite ?exec_run_broadcaster, ?Hflag.
    + destruct (0 <? size (active_clients w))%nat; by eexists.
    + destruct (deadline <=? monotonic w); [| by eexists].
      destruct (0 <? size (active_clients w))%nat; by eexists.
Qed.

Lemma broadcaster_runs_until_shutdown_witness :
  shutdown_requested (run_actions morning idle) = false /\
  exists c, bg_task (run_actions morning idle) = Pending c false.
Proof.
  apply (broadcaster_runs_until_shutdown morning idle); [reflexivity |].
  by exists Fresh.
Defined.
